(** * rbc-timezone-utils: date and time-zone helpers over JS [Date] and moment-timezone

    The development embeds [src/date.js] (day truncation, day comparison,
    epoch shifting, duration humanizing) and [src/timezones/timezones.js]
    (zoned/local conversion, zone-aware parsing, the zone catalog).

    A JS [Date] holds a time value: an integral number of milliseconds since
    the epoch, or NaN ("Invalid Date").  It is modelled as [option Z]; every
    number the code computes from an in-range time value is an integer below
    2^53 in magnitude, where double arithmetic is exact, so [Z] arithmetic
    followed by [TimeClip] is the arithmetic of the program. *)

From Stdlib Require Import ZArith List Bool Lia String Ascii Sorting.Permutation Sorting.Sorted.
From Stdlib Require Import Floats.SpecFloat.
Import ListNotations.
Open Scope Z_scope.

(** [lia] is used on goals with division and remainder by constants. *)
Ltac Zify.zify_post_hook ::= Z.to_euclidean_division_equations.

(** ** The ECMAScript time-value algebra used by [Date]

    The getters ([getFullYear], [getMonth], ...) and the field constructor
    [new Date(y, m, d, ...)] are defined by the language in terms of the
    abstract operations below (ECMA-262, "Time Values and Time Range"). *)

Module ES.

Definition msPerDay : Z := 86400000.
Definition msPerHour : Z := 3600000.
Definition msPerMinute : Z := 60000.
Definition msPerSecond : Z := 1000.

(** The largest magnitude a time value may have. *)
Definition maxTime : Z := 8640000000000000.

Definition Day (t : Z) : Z := t / msPerDay.
Definition TimeWithinDay (t : Z) : Z := t mod msPerDay.

Definition isLeap (y : Z) : bool :=
  ((y mod 4 =? 0) && negb (y mod 100 =? 0)) || (y mod 400 =? 0).

Definition DaysInYear (y : Z) : Z := if isLeap y then 366 else 365.

Definition DayFromYear (y : Z) : Z :=
  365 * (y - 1970) + (y - 1969) / 4 - (y - 1901) / 100 + (y - 1601) / 400.

(** [YearFromTime t] is the largest [y] with [TimeFromYear y <= t]; computed
    here from the mean year length and corrected by at most one. *)
Definition YearFromDay (d : Z) : Z :=
  let y := 1970 + (400 * d) / 146097 in
  if DayFromYear (y + 1) <=? d then y + 1
  else if DayFromYear y <=? d then y
  else y - 1.

Definition YearFromTime (t : Z) : Z := YearFromDay (Day t).

Definition InLeapYear (t : Z) : Z := if isLeap (YearFromTime t) then 1 else 0.

Definition DayWithinYear (t : Z) : Z := Day t - DayFromYear (YearFromTime t).

(** Number of days of the year that precede month [m] (0 = January). *)
Definition daysBeforeMonth (leap : Z) (m : Z) : Z :=
  if m <=? 0 then 0
  else if m =? 1 then 31
  else if m =? 2 then 59 + leap
  else if m =? 3 then 90 + leap
  else if m =? 4 then 120 + leap
  else if m =? 5 then 151 + leap
  else if m =? 6 then 181 + leap
  else if m =? 7 then 212 + leap
  else if m =? 8 then 243 + leap
  else if m =? 9 then 273 + leap
  else if m =? 10 then 304 + leap
  else 334 + leap.

Definition monthOfYearDay (leap : Z) (d : Z) : Z :=
  if d <? 31 then 0
  else if d <? 59 + leap then 1
  else if d <? 90 + leap then 2
  else if d <? 120 + leap then 3
  else if d <? 151 + leap then 4
  else if d <? 181 + leap then 5
  else if d <? 212 + leap then 6
  else if d <? 243 + leap then 7
  else if d <? 273 + leap then 8
  else if d <? 304 + leap then 9
  else if d <? 334 + leap then 10
  else 11.

Definition MonthFromTime (t : Z) : Z :=
  monthOfYearDay (InLeapYear t) (DayWithinYear t).

Definition DateFromTime (t : Z) : Z :=
  DayWithinYear t - daysBeforeMonth (InLeapYear t) (MonthFromTime t) + 1.

Definition HourFromTime (t : Z) : Z := (t / msPerHour) mod 24.
Definition MinFromTime (t : Z) : Z := (t / msPerMinute) mod 60.
Definition SecFromTime (t : Z) : Z := (t / msPerSecond) mod 60.
Definition msFromTime (t : Z) : Z := t mod msPerSecond.

Definition MakeTime (hour min sec ms : Z) : Z :=
  hour * msPerHour + min * msPerMinute + sec * msPerSecond + ms.

Definition MakeDay (year month date : Z) : Z :=
  let ym := year + month / 12 in
  let mn := month mod 12 in
  DayFromYear ym + daysBeforeMonth (if isLeap ym then 1 else 0) mn + date - 1.

Definition MakeDate (day time : Z) : Z := day * msPerDay + time.

(** [TimeClip]: a time value outside the range becomes NaN. *)
Definition TimeClip (t : Z) : option Z :=
  if Z.abs t <=? maxTime then Some t else None.

(** The seven calendar and clock fields of a time value. *)
Record Fields : Type := mkFields {
  f_year : Z; f_month : Z; f_date : Z;
  f_hour : Z; f_minute : Z; f_second : Z; f_ms : Z
}.

Definition fieldsOf (t : Z) : Fields :=
  mkFields (YearFromTime t) (MonthFromTime t) (DateFromTime t)
           (HourFromTime t) (MinFromTime t) (SecFromTime t) (msFromTime t).

(** The time value denoted by a field tuple, read as UTC fields. *)
Definition timeOfFields (f : Fields) : Z :=
  MakeDate (MakeDay (f_year f) (f_month f) (f_date f))
           (MakeTime (f_hour f) (f_minute f) (f_second f) (f_ms f)).

(** The time value of midnight at the start of [t]'s day. *)
Definition startOfDay (t : Z) : Z := MakeDate (Day t) 0.

End ES.

(** ** JS numbers and [Date] objects

    A number that may be NaN is an [option Z]; a [Date] is its time value. *)

Definition Number := option Z.
Definition Date := option Z.

Definition bindN {A : Type} (x : option A) (k : A -> option Z) : option Z :=
  match x with Some v => k v | None => None end.

Notation "x <- e ;; k" := (bindN e (fun x => k))
  (at level 61, e at next level, right associativity).

(** Strict equality [===] on numbers: NaN is different from everything. *)
Definition strictEq (a b : Number) : bool :=
  match a, b with Some x, Some y => x =? y | _, _ => false end.

(** [new Date(value)] for a numeric argument. *)
Definition newDateOfValue (v : Number) : Date := t <- v ;; ES.TimeClip t.

Definition valueOf (d : Date) : Number := d.

Section Environment.

(** The environment's default zone: [LocalTZA t true] is the offset in
    milliseconds in force at the UTC time value [t], [LocalTZA w false] the
    offset the engine chooses for the local time value [w]. *)
Variable LocalTZA : Z -> bool -> Z.

Definition LocalTime (t : Z) : Z := t + LocalTZA t true.
Definition UTC (w : Z) : Z := w - LocalTZA w false.

Definition getFullYear (d : Date) : Number := option_map (fun t => ES.YearFromTime (LocalTime t)) d.
Definition getMonth (d : Date) : Number := option_map (fun t => ES.MonthFromTime (LocalTime t)) d.
Definition getDate (d : Date) : Number := option_map (fun t => ES.DateFromTime (LocalTime t)) d.
Definition getHours (d : Date) : Number := option_map (fun t => ES.HourFromTime (LocalTime t)) d.
Definition getMinutes (d : Date) : Number := option_map (fun t => ES.MinFromTime (LocalTime t)) d.
Definition getSeconds (d : Date) : Number := option_map (fun t => ES.SecFromTime (LocalTime t)) d.
Definition getMilliseconds (d : Date) : Number := option_map (fun t => ES.msFromTime (LocalTime t)) d.

(** [new Date(year, month, date, hours, minutes, seconds, ms)]: a year from
    0 to 99 means 1900 + year; the fields are read in the default zone. *)
Definition newDate (year month date hours minutes seconds ms : Number) : Date :=
  y <- year ;; m <- month ;; dt <- date ;;
  h <- hours ;; mi <- minutes ;; s <- seconds ;; milli <- ms ;;
  let yr := if (0 <=? y) && (y <=? 99) then 1900 + y else y in
  ES.TimeClip (UTC (ES.MakeDate (ES.MakeDay yr m dt) (ES.MakeTime h mi s milli))).

(** *** src/date.js *)

Definition toDate (d : Date) : Date :=
  newDate (getFullYear d) (getMonth d) (getDate d) (Some 0) (Some 0) (Some 0) (Some 0).

Definition isSameDay (a b : Date) : bool :=
  strictEq (getFullYear a) (getFullYear b) &&
  strictEq (getMonth a) (getMonth b) &&
  strictEq (getDate a) (getDate b).

Definition shift (d : Date) (millis : Z) : Date :=
  newDateOfValue (t <- valueOf d ;; Some (t + millis)).

Definition shiftDate (d : Date) (n : Z) : Date := shift d (n * 24 * 60 * 60 * 1000).

Definition shiftHour (d : Date) (n : Z) : Date := shift d (n * 60 * 60 * 1000).

(** [a || b] on numbers: the first operand unless it is 0 or NaN. *)
Definition orN (a b : Number) : Number :=
  match a with
  | Some x => if x =? 0 then b else a
  | None => b
  end.

Definition hasTime (d : Date) : Number :=
  orN (getHours d) (orN (getMinutes d) (orN (getSeconds d) (getMilliseconds d))).

End Environment.

(** An Instant is a [Date] with a time value. *)
Definition isInstant (d : Date) : Prop := exists t, d = Some t /\ Z.abs t <= ES.maxTime.

(** ** moment-timezone: zones and zoned moments

    A zone of the time-zone database is the library's unpacked table: the
    parallel arrays [untils] and [offsets], whose last until is Infinity.
    Here [z_segments] lists the pairs (until, offset) with a finite until and
    [z_last] is the offset whose until is Infinity.  Offsets are whole
    minutes WEST of UTC (UTC minus local time), untils are UTC time values. *)

Record Zone : Type := mkZone {
  z_segments : list (Z * Z);
  z_last : Z
}.

(** [Zone.prototype.utcOffset(timestamp)]: the offset of the first segment
    whose until is after the UTC timestamp. *)
Fixpoint offsetIn (segs : list (Z * Z)) (last target : Z) : Z :=
  match segs with
  | [] => last
  | (u, o) :: rest => if target <? u then o else offsetIn rest last target
  end.

Definition Zone_utcOffset (z : Zone) (timestamp : Z) : Z :=
  offsetIn (z_segments z) (z_last z) timestamp.

(** The library's switches, at their default values. *)
Definition moveAmbiguousForward : bool := false.
Definition moveInvalidForward : bool := true.

Definition nextOffset (rest : list (Z * Z)) (last : Z) : Z :=
  match rest with [] => last | (_, o) :: _ => o end.

(** [Zone.prototype.parse(timestamp)]: the offset for a LOCAL reading
    (wall-clock fields taken as if they were UTC).  [prev] is [offsets[i-1]]
    (or [offsets[0]] in the first round). *)
Fixpoint parseIn (prev : Z) (segs : list (Z * Z)) (last target : Z) : Z :=
  match segs with
  | [] => last
  | (u, o) :: rest =>
      let offsetNext := nextOffset rest last in
      let offset :=
        if (o <? offsetNext) && moveAmbiguousForward then offsetNext
        else if (prev <? o) && moveInvalidForward then prev
        else o in
      if target <? u - offset * 60000 then o
      else parseIn o rest last target
  end.

Definition Zone_parse (z : Zone) (timestamp : Z) : Z :=
  parseIn (nextOffset (z_segments z) (z_last z)) (z_segments z) (z_last z) timestamp.

(** A moment: the wrapped date [_d], the offset [_offset] in minutes EAST of
    UTC and the flag [_isUTC].  In UTC mode [_d] is kept shifted by the
    offset and the fields are its UTC fields. *)
Record Moment : Type := mkMoment {
  m_d : Date;
  m_offset : Z;
  m_isUTC : bool
}.

(** [moment(date)]: a moment in local mode. *)
Definition moment (d : Date) : Moment := mkMoment d 0 false.

Definition moment_valueOf (m : Moment) : Number :=
  t <- m_d m ;; Some (t - m_offset m * 60000).

(** [mom.utcOffset(input)] as a setter, on whole minutes: [_d] moves by the
    change of offset, so that [valueOf] is unchanged.  (For an offset below
    16 minutes moment-timezone passes the offset divided by 60 and moment
    multiplies it by 60 again.) *)
Definition moment_setOffset (m : Moment) (input : Z) : Moment :=
  match m_d m with
  | None => m
  | Some t =>
      mkMoment (if m_offset m =? input then Some t
                else ES.TimeClip (t + (input - m_offset m) * 60000))
               input true
  end.

Definition moment_toDate (m : Moment) : Date := newDateOfValue (moment_valueOf m).

(** [createUTCDate]: the date of an array of fields read as UTC; moment
    undoes the two-digit-year rule of [Date.UTC]. *)
Definition createUTCDate (f : option ES.Fields) : Date :=
  match f with
  | Some f => ES.TimeClip (ES.timeOfFields f)
  | None => None
  end.

(** [moment.utc([y, m, d, h, mi, s, ms])]. *)
Definition moment_utc_array (f : option ES.Fields) : Moment :=
  mkMoment (createUTCDate f) 0 true.

(** [mom.add(n, 'minutes')]. *)
Definition moment_addMinutes (m : Moment) (n : Z) : Moment :=
  match m_d m with
  | None => m
  | Some t => mkMoment (if n =? 0 then Some t else ES.TimeClip (t + n * 60000))
                       (m_offset m) (m_isUTC m)
  end.

(** What a JS call produces: a value, or a thrown [TypeError]. *)
Inductive Outcome (A : Type) : Type :=
| Returned (a : A)
| ThrownTypeError.
Arguments Returned {A} a.
Arguments ThrownTypeError {A}.

Definition isEmpty (s : string) : bool :=
  match s with EmptyString => true | _ => false end.

Section Zones.

Variable LocalTZA : Z -> bool -> Z.

(** [getZone(name)] of the loaded time-zone data; [None] stands for the
    library's [null] ("Moment Timezone has no data for ..."). *)
Variable getZone : string -> option Zone.

(** [mom.tz(name)] for a non-empty name: a known zone puts the moment into
    UTC mode at that zone's offset; an unknown one is reported on the
    console and the moment is returned as it was. *)
Definition moment_tz (m : Moment) (name : string) : Moment :=
  match getZone name with
  | Some z =>
      match moment_valueOf m with
      | Some ts => moment_setOffset m (- Zone_utcOffset z ts)
      | None => m
      end
  | None => m
  end.

(** The field getters [year()], [month()], ..., [millisecond()]. *)
Definition moment_fields (m : Moment) : option ES.Fields :=
  match m_d m with
  | None => None
  | Some t => Some (ES.fieldsOf (if m_isUTC m then t else LocalTime LocalTZA t))
  end.

(** [moment.tz([fields], name)]: the fields are read as UTC, the offset the
    zone gives for that local reading is added, and the moment is put into
    the zone.  Without zone data nothing is added. *)
Definition moment_tz_array (f : option ES.Fields) (name : string) : Moment :=
  let out := moment_utc_array f in
  let out :=
    match getZone name, moment_valueOf out with
    | Some z, Some ts => moment_addMinutes out (Zone_parse z ts)
    | _, _ => out
    end in
  if isEmpty name then out else moment_tz out name.

(** The fields of a [Date] through its local getters. *)
Definition dateFields (d : Date) : option ES.Fields :=
  option_map (fun t => ES.fieldsOf (LocalTime LocalTZA t)) d.

Definition newDateOfFields (f : option ES.Fields) : Date :=
  match f with
  | None => None
  | Some f =>
      newDate LocalTZA (Some (ES.f_year f)) (Some (ES.f_month f)) (Some (ES.f_date f))
              (Some (ES.f_hour f)) (Some (ES.f_minute f)) (Some (ES.f_second f))
              (Some (ES.f_ms f))
  end.

(** *** src/timezones/timezones.js *)

(** [moment(t).tz('')] is the getter: it returns the zone name, here
    [undefined], and [m.year()] then throws. *)
Definition zonedToLocal (t : Date) (zone : string) : Outcome Date :=
  if isEmpty zone then ThrownTypeError
  else
    let m := moment_tz (moment t) zone in
    Returned (newDateOfFields (moment_fields m)).

Definition localToZoned (t : Date) (zone : string) : Outcome Date :=
  Returned (moment_toDate (moment_tz_array (dateFields t) zone)).

End Zones.

(** Sequencing of calls: a thrown error propagates. *)
Definition andThen {A B : Type} (x : Outcome A) (k : A -> Outcome B) : Outcome B :=
  match x with Returned a => k a | ThrownTypeError => ThrownTypeError end.

(** ** Parsing date strings

    What a date string denotes: calendar and clock fields, an explicit
    offset in minutes east of UTC when the string carries one (0 for "Z"),
    and whether the string has a date and no time. *)

Record Parsed : Type := mkParsed {
  p_fields : ES.Fields;
  p_tzm : option Z;
  p_dateOnly : bool
}.

(** The reader used in the examples: the ISO 8601 form
    YYYY-MM-DD[THH:mm[:ss[.sss]]][Z|+HH:mm|+HHmm], also with a signed
    six-digit year, read alike by [Date.parse] and by moment. *)
Module ISO.

Definition digit (c : ascii) : option Z :=
  let n := Z.of_nat (nat_of_ascii c) in
  if (48 <=? n) && (n <=? 57) then Some (n - 48) else None.

Definition num2 (a b : ascii) : option Z :=
  match digit a, digit b with
  | Some x, Some y => Some (10 * x + y)
  | _, _ => None
  end.

Definition num3 (a b c : ascii) : option Z :=
  match digit a, num2 b c with
  | Some x, Some y => Some (100 * x + y)
  | _, _ => None
  end.

Definition num4 (a b c d : ascii) : option Z :=
  match num2 a b, num2 c d with
  | Some x, Some y => Some (100 * x + y)
  | _, _ => None
  end.

(** The offset suffix; [None] is a malformed suffix. *)
Definition offsetOf (l : list ascii) : option (option Z) :=
  match l with
  | [] => Some None
  | ["Z"%char] => Some (Some 0)
  | [sg; h1; h2; ":"%char; m1; m2] | [sg; h1; h2; m1; m2] =>
      match num2 h1 h2, num2 m1 m2 with
      | Some h, Some m =>
          if Ascii.eqb sg "+" then Some (Some (h * 60 + m))
          else if Ascii.eqb sg "-" then Some (Some (- (h * 60 + m)))
          else None
      | _, _ => None
      end
  | _ => None
  end.

Definition daysInMonth (y m : Z) : Z :=
  let leap := if ES.isLeap y then 1 else 0 in
  (if m =? 11 then 365 + leap else ES.daysBeforeMonth leap (m + 1))
  - ES.daysBeforeMonth leap m.

Definition checked (y mo d h mi s ms : Z) (tzm : option Z) (dateOnly : bool) : option Parsed :=
  if (1 <=? mo) && (mo <=? 12) && (1 <=? d) && (d <=? daysInMonth y (mo - 1))
     && (h <=? 23) && (mi <=? 59) && (s <=? 59)
  then Some (mkParsed (ES.mkFields y (mo - 1) d h mi s ms) tzm dateOnly)
  else None.

(** Seconds, fraction and offset after HH:mm. *)
Definition clockTail (l : list ascii) : option (Z * Z * option Z) :=
  match l with
  | ":"%char :: s1 :: s2 :: "."%char :: f1 :: f2 :: f3 :: rest =>
      match num2 s1 s2, num3 f1 f2 f3, offsetOf rest with
      | Some s, Some f, Some o => Some (s, f, o)
      | _, _, _ => None
      end
  | ":"%char :: s1 :: s2 :: rest =>
      match num2 s1 s2, offsetOf rest with
      | Some s, Some o => Some (s, 0, o)
      | _, _ => None
      end
  | rest =>
      match offsetOf rest with
      | Some o => Some (0, 0, o)
      | None => None
      end
  end.

(** Month, day and the rest, after the year. *)
Definition afterYear (y : Z) (l : list ascii) : option Parsed :=
  match l with
  | "-"%char :: mo1 :: mo2 :: "-"%char :: d1 :: d2 :: rest =>
      match num2 mo1 mo2, num2 d1 d2 with
      | Some mo, Some d =>
          match rest with
          | [] => checked y mo d 0 0 0 0 None true
          | "T"%char :: h1 :: h2 :: ":"%char :: mi1 :: mi2 :: tail =>
              match num2 h1 h2, num2 mi1 mi2, clockTail tail with
              | Some h, Some mi, Some (s, f, o) => checked y mo d h mi s f o false
              | _, _, _ => None
              end
          | _ => None
          end
      | _, _ => None
      end
  | _ => None
  end.

(** A year has four digits, or a sign and six digits. *)
Definition parse (str : string) : option Parsed :=
  match list_ascii_of_string str with
  | "+"%char :: y1 :: y2 :: y3 :: y4 :: y5 :: y6 :: rest =>
      match num2 y1 y2, num4 y3 y4 y5 y6 with
      | Some a, Some b => afterYear (10000 * a + b) rest
      | _, _ => None
      end
  | "-"%char :: y1 :: y2 :: y3 :: y4 :: y5 :: y6 :: rest =>
      match num2 y1 y2, num4 y3 y4 y5 y6 with
      | Some a, Some b => afterYear (- (10000 * a + b)) rest
      | _, _ => None
      end
  | y1 :: y2 :: y3 :: y4 :: rest =>
      match num4 y1 y2 y3 y4 with
      | Some y => afterYear y rest
      | None => None
      end
  | _ => None
  end.

End ISO.

Section Parsing.

Variable LocalTZA : Z -> bool -> Z.
Variable getZone : string -> option Zone.

(** The reading of date strings shared by [Date.parse] and moment; [None]
    for a string they do not read. *)
Variable parseString : string -> option Parsed.

(** [new Date(str)]: an explicit offset is honoured; without one a
    date-time is local time and a date alone is UTC. *)
Definition newDateOfString (str : string) : Date :=
  match parseString str with
  | None => None
  | Some p =>
      let F := ES.timeOfFields (p_fields p) in
      match p_tzm p with
      | Some off => ES.TimeClip (F - off * 60000)
      | None => if p_dateOnly p then ES.TimeClip F else ES.TimeClip (UTC LocalTZA F)
      end
  end.

(** [moment.utc(str)]: the fields are read as UTC and an explicit offset is
    then subtracted from the minutes.  The second component is
    [needsOffset]: fields were parsed and no offset was given. *)
Definition moment_utc_string (str : string) : Moment * bool :=
  match parseString str with
  | None => (mkMoment None 0 true, false)
  | Some p =>
      let d := createUTCDate (Some (p_fields p)) in
      match p_tzm p with
      | Some off => (mkMoment (t <- d ;; ES.TimeClip (t - off * 60000)) 0 true, false)
      | None => (mkMoment d 0 true, true)
      end
  end.

(** [moment.tz(str, name)]. *)
Definition moment_tz_string (str name : string) : Moment :=
  let '(out, needsOffset) := moment_utc_string str in
  let out :=
    match getZone name, moment_valueOf out with
    | Some z, Some ts => if needsOffset then moment_addMinutes out (Zone_parse z ts) else out
    | _, _ => out
    end in
  if isEmpty name then out else moment_tz getZone out name.

(** *** src/timezones/timezones.js, continued.  An omitted zone is [None]. *)
Definition parseInZone (str : string) (zone : option string) : Date :=
  match zone with
  | Some name =>
      if isEmpty name then newDateOfString str
      else moment_toDate (moment_tz_string str name)
  | None => newDateOfString str
  end.

End Parsing.

(** ** Decimal text: number to string conversion and [parseInt] *)

Module Text.

Definition digitChar (d : Z) : ascii := ascii_of_nat (Z.to_nat (48 + d)).

(** The decimal digits of [n], least significant first. *)
Fixpoint digitsLE (fuel : nat) (n : Z) : list Z :=
  match fuel with
  | O => []
  | S f => if n <? 10 then [n] else (n mod 10) :: digitsLE f (n / 10)
  end.

Definition digitsOf (n : Z) : list Z := rev (digitsLE (S (Z.to_nat (Z.log2 n))) n).

(** [String(n)] for an integer [n >= 0]. *)
Definition decimal (n : Z) : string :=
  string_of_list_ascii (map digitChar (digitsOf n)).

(** moment's [zeroFill(n, 2)] for [n >= 0]. *)
Definition zeroFill2 (n : Z) : string :=
  if n <? 10 then ("0" ++ decimal n)%string else decimal n.

(** The digits at the front of a text. *)
Fixpoint digitsPrefix (l : list ascii) : list Z :=
  match l with
  | [] => []
  | c :: r => match ISO.digit c with
              | Some d => d :: digitsPrefix r
              | None => []
              end
  end.

Definition valueOfDigits (ds : list Z) : Z := fold_left (fun acc d => 10 * acc + d) ds 0.

(** [parseInt(str)] on a text without leading white space or hexadecimal
    prefix: an optional sign, then the longest run of digits; NaN when
    there is no digit. *)
Definition parseInt (str : string) : Number :=
  let l := list_ascii_of_string str in
  let '(neg, body) :=
    match l with
    | "-"%char :: r => (true, r)
    | "+"%char :: r => (false, r)
    | _ => (false, l)
    end in
  match digitsPrefix body with
  | [] => None
  | ds => Some (if neg then - valueOfDigits ds else valueOfDigits ds)
  end.

(** [str.replace(/_/, ' ')]: a regular expression without the global flag
    replaces the first match only. *)
Fixpoint replaceFirstUnderscore (s : string) : string :=
  match s with
  | EmptyString => EmptyString
  | String c r => if Ascii.eqb c "_" then String " " r
                  else String c (replaceFirstUnderscore r)
  end.

(** Every underscore replaced by a space. *)
Fixpoint replaceAllUnderscores (s : string) : string :=
  match s with
  | EmptyString => EmptyString
  | String c r => String (if Ascii.eqb c "_" then " "%char else c) (replaceAllUnderscores r)
  end.

End Text.

(** ** Formatting the offset of a moment *)

Section Format.

Variable LocalTZA : Z -> bool -> Z.

(** [mom.utcOffset()]: the stored offset in UTC mode, else the default
    zone's, [-Math.round(d.getTimezoneOffset())]. *)
Definition moment_utcOffset (m : Moment) : Number :=
  t <- m_d m ;;
  Some (if m_isUTC m then m_offset m
        else - ((- LocalTZA t true + 30000) / 60000)).

(** The format tokens "Z" ([sep] is ":") and "ZZ" ([sep] is empty). *)
Definition offsetText (sep : string) (offset : Z) : string :=
  let sign : string := if offset <? 0 then "-"%string else "+"%string in
  let a := Z.abs offset in
  (sign ++ Text.zeroFill2 (a / 60) ++ sep ++ Text.zeroFill2 (a mod 60))%string.

Definition moment_format_offset (sep : string) (m : Moment) : string :=
  match moment_utcOffset m with
  | Some off => offsetText sep off
  | None => "Invalid date"%string
  end.

End Format.

(** ** lodash [sortBy] on the records of [sortZones] *)

Record ZoneEntry : Type := mkEntry {
  e_name : string;
  e_offset : Number
}.

(** [compareAscending] on numbers: NaN goes last. *)
Definition compareNumber (a b : Number) : comparison :=
  match a, b with
  | None, _ => Gt
  | Some _, None => Lt
  | Some x, Some y => x ?= y
  end.

(** [compareMultiple] over the criteria ['offset', 'name']. *)
Definition compareEntry (a b : ZoneEntry) : comparison :=
  match compareNumber (e_offset a) (e_offset b) with
  | Eq => String.compare (e_name a) (e_name b)
  | c => c
  end.

Definition entryLe (a b : ZoneEntry) : bool :=
  match compareEntry a b with Gt => false | _ => true end.

(** A stable sort: an element goes after the elements not greater than it. *)
Fixpoint insertEntry (x : ZoneEntry) (l : list ZoneEntry) : list ZoneEntry :=
  match l with
  | [] => [x]
  | y :: r => if entryLe y x then y :: insertEntry x r else x :: y :: r
  end.

Definition sortBy (l : list ZoneEntry) : list ZoneEntry :=
  fold_left (fun acc x => insertEntry x acc) l [].

(** ** The zone catalog of src/timezones/timezones.js *)

Section Catalog.

Variable LocalTZA : Z -> bool -> Z.
Variable getZone : string -> option Zone.

(** [timezones.json]: identifier and friendly name, in the order of the
    file (which is the order of [Object.keys]). *)
Variable TIMEZONES : list (string * string).

(** [TIMEZONES[zone]] for a name that is not a property of
    [Object.prototype]. *)
Fixpoint lookup (table : list (string * string)) (zone : string) : option string :=
  match table with
  | [] => None
  | (k, v) :: rest => if String.eqb k zone then Some v else lookup rest zone
  end.

(** The [map] of [sortZones]: the one moment [nowM] is moved from zone to
    zone ([nowM] stays where it was when [z] has no zone data); an empty
    [z] makes [nowM.tz(z)] the getter, and [.format] then throws. *)
Fixpoint zoneEntries (nowM : Moment) (zones : list string) : Outcome (list ZoneEntry) :=
  match zones with
  | [] => Returned []
  | z :: rest =>
      if isEmpty z then ThrownTypeError
      else
        let nowM := moment_tz getZone nowM z in
        let entry := mkEntry z (Text.parseInt (moment_format_offset LocalTZA "" nowM)) in
        andThen (zoneEntries nowM rest) (fun l => Returned (entry :: l))
  end.

Definition sortZones (now : Z) (zones : list string) : Outcome (list string) :=
  let nowM := moment (newDateOfValue (Some now)) in
  andThen (zoneEntries nowM zones) (fun l => Returned (map e_name (sortBy l))).

(** [COMMON_ZONES] is computed when the module is loaded, at [loadTime]. *)
Variable loadTime : Z.

Definition COMMON_ZONES : Outcome (list string) := sortZones loadTime (map fst TIMEZONES).

(** [getCommonZones()], called at any later time. *)
Definition getCommonZones (callTime : Z) : Outcome (list string) := COMMON_ZONES.

Definition beautify (zone : string) : string := Text.replaceFirstUnderscore zone.

(** [moment.tz(Date.now(), zone)]: a number carries no fields, so no offset
    is added before the moment is put into the zone. *)
Definition moment_tz_value (v : Z) (name : string) : Moment :=
  let out := mkMoment (newDateOfValue (Some v)) 0 true in
  if isEmpty name then out else moment_tz getZone out name.

(** [a || b] on strings: the empty string and [undefined] are falsy. *)
Definition orElse (a : option string) (b : string) : string :=
  match a with
  | Some s => if isEmpty s then b else s
  | None => b
  end.

Definition humanizeZone (now : Z) (zone : string) : string :=
  let offset := moment_format_offset LocalTZA ":" (moment_tz_value now zone) in
  let name := orElse (lookup TIMEZONES zone) (beautify zone) in
  ("(GMT" ++ offset ++ ") " ++ name)%string.

End Catalog.

(** ** Formatting in a zone *)

Section Formatting.

Variable getZone : string -> option Zone.

(** [mom.format(pattern)] of moment. *)
Variable momentFormat : Moment -> string -> string.

(** [toMoment]: an omitted zone is [None]; the empty string is falsy. *)
Definition toMoment (d : Date) (zone : option string) : Moment :=
  match zone with
  | Some name => if isEmpty name then moment d else moment_tz getZone (moment d) name
  | None => moment d
  end.

Definition formatInZone (t : Date) (format : string) (zone : option string) : string :=
  momentFormat (toMoment t zone) format.

End Formatting.

(** ** Humanized durations

    [minutes / 60.0] is printed, so the double itself is needed: doubles are
    the binary64 instance of the library's [spec_float]. *)

Module B64.

Definition ofZ (n : Z) : spec_float := binary_normalize 53 1024 n 0 false.

Definition div (x y : spec_float) : spec_float := SFdiv 53 1024 x y.

Definition leb (x y : spec_float) : bool := SFleb x y.

(** [x % 60 === 0] for a finite double. *)
Definition isMultipleOf60 (x : spec_float) : bool :=
  match x with
  | S754_zero _ => true
  | S754_finite _ m e =>
      if 0 <=? e then (Z.pos m * 2 ^ e) mod 60 =? 0
      else (Z.pos m mod 2 ^ (- e) =? 0) && ((Z.pos m / 2 ^ (- e)) mod 60 =? 0)
  | _ => false
  end.

(** [x.toFixed(1)] for [|x| < 1e21]: the integer [n] nearest to ten times
    the magnitude (the larger one on a tie), written with one decimal. *)
Definition toFixed1 (x : spec_float) : string :=
  match x with
  | S754_nan => "NaN"
  | S754_infinity s => if s then "-Infinity" else "Infinity"
  | S754_zero _ => "0.0"
  | S754_finite s m e =>
      let n := if 0 <=? e then 10 * Z.pos m * 2 ^ e
               else (20 * Z.pos m + 2 ^ (- e)) / (2 * 2 ^ (- e)) in
      ((if s then "-" else "") ++ Text.decimal (n / 10) ++ "." ++ Text.decimal (n mod 10))%string
  end.

End B64.

Section Humanize.

(** [moment.duration(ms).humanize()]. *)
Variable humanize : Z -> string.

(** [moment(end).diff(start)]: the difference of the time values. *)
Definition momentDiff (start end_ : Date) : Number :=
  e <- end_ ;; s <- start ;; Some (e - s).

(** [(minutes / 60.0).toFixed(1)] for [minutes = diff / 6e4]. *)
Definition hoursText (diff : Z) : string :=
  B64.toFixed1 (B64.div (B64.div (B64.ofZ diff) (B64.ofZ 60000)) (B64.ofZ 60)).

(** *** src/date.js, continued.

    [minutes] is the double nearest to [diff / 6e4].  For a difference of
    at most 2^53 in magnitude that double is at most 60, or a multiple of
    60, exactly when the quotient is, so the two tests are made on [diff];
    the printed quotient is computed in doubles.  NaN fails both tests and
    prints as "NaN". *)
Definition humanizedDuration (start end_ : Date) : string :=
  match momentDiff start end_ with
  | None => "NaN hours"
  | Some diff =>
      if (diff <=? 60 * 60000) || (diff mod (60 * 60000) =? 0)
      then humanize diff
      else (hoursText diff ++ " hours")%string
  end.

End Humanize.

(** The two tests of [humanizedDuration], made on the double. *)
Definition minutesDouble (diff : Z) : spec_float := B64.div (B64.ofZ diff) (B64.ofZ 60000).

Definition testsOnDouble (diff : Z) : bool :=
  B64.leb (minutesDouble diff) (B64.ofZ 60) || B64.isMultipleOf60 (minutesDouble diff).

Definition testsOnDiff (diff : Z) : bool :=
  (diff <=? 60 * 60000) || (diff mod (60 * 60000) =? 0).

(** ** Vocabulary of the statements *)

Definition isDigit (d : Z) : Prop := 0 <= d <= 9.

(** Value of a digit list given least significant digit first. *)
Definition valueLE (ds : list Z) : Z := fold_right (fun d acc => d + 10 * acc) 0 ds.

(** The digits that [zeroFill2] writes. *)
Definition zeroFill2Digits (n : Z) : list Z :=
  if n <? 10 then 0 :: Text.digitsOf n else Text.digitsOf n.

(** The number [parseInt] reads from the "ZZ" text of an offset of [off]
    minutes: hours and minutes written side by side. *)
Definition zzKey (off : Z) : Z :=
  let a := Z.abs off in
  let v := 100 * (a / 60) + a mod 60 in
  if off <? 0 then - v else v.

Definition hasOffset (e : ZoneEntry) : Prop := exists k, e_offset e = Some k.

Definition entryOrder (a b : ZoneEntry) : Prop := entryLe a b = true.

Section ZoneOrder.

Variable getZone : string -> option Zone.
Variable loadTime : Z.

(** The UTC offset of a zone at load time, in minutes east of UTC. *)
Definition currentOffset (name : string) : Z :=
  match getZone name with
  | Some z => - Zone_utcOffset z loadTime
  | None => 0
  end.

(** By offset first, by identifier among equal offsets. *)
Definition zoneOrder (a b : string) : Prop :=
  currentOffset a < currentOffset b \/
  (currentOffset a = currentOffset b /\ String.leb a b = true).

(** An identifier of the zone database whose wall-clock reading of the
    load time is inside the range of [Date]. *)
Definition knownZone (k : string) : Prop :=
  isEmpty k = false /\
  exists z, getZone k = Some z /\
            Z.abs (loadTime - Zone_utcOffset z loadTime * 60000) <= ES.maxTime.

Definition entryOf (k : string) : ZoneEntry := mkEntry k (Some (zzKey (currentOffset k))).

End ZoneOrder.

(** Number of underscores of a text. *)
Fixpoint underscores (s : string) : nat :=
  match s with
  | EmptyString => O
  | String c r => ((if Ascii.eqb c "_" then 1 else 0) + underscores r)%nat
  end.

(** ** Concrete default zones used in the examples *)

(** A default zone with a constant offset of [off] milliseconds. *)
Definition fixedTZA (off : Z) : Z -> bool -> Z := fun _ _ => off.

Definition utcTZA : Z -> bool -> Z := fixedTZA 0.

(** America/Sao_Paulo around 2018-11-04: at 03:00:00Z the offset goes from
    -03:00 to -02:00, so local 00:00 to 00:59 of that day is skipped.  A
    skipped local time is read with the offset before the transition. *)
Definition saoPauloTZA : Z -> bool -> Z := fun t isUTC =>
  if isUTC
  then (if t <? 1541300400000 then -10800000 else -7200000)
  else (if t <? 1541300400000 - 7200000 then -10800000 else -7200000).

(** ** Concrete zone data used in the examples *)

Definition zoneUTC : Zone := mkZone [] 0.

(** The rows of America/New_York from 2017 to 2019: EDT (240) until
    2017-11-05T06:00Z, EST (300) until 2018-03-11T07:00Z, EDT until
    2018-11-04T06:00Z, EST until 2019-03-10T07:00Z, EDT until
    2019-11-03T06:00Z, then EST. *)
Definition zoneNewYork : Zone :=
  mkZone [(1509861600000, 240); (1520751600000, 300); (1541311200000, 240);
          (1552201200000, 300); (1572760800000, 240)] 300.

(** Australia/Sydney from 2017 to 2019: AEDT (-660) until 2017-04-01T16:00Z,
    AEST (-600) until 2017-09-30T16:00Z, AEDT until 2018-03-31T16:00Z, AEST
    until 2018-10-06T16:00Z, AEDT until 2019-04-06T16:00Z, then AEST. *)
Definition zoneSydney : Zone :=
  mkZone [(1491062400000, -660); (1506787200000, -600); (1522512000000, -660);
          (1538841600000, -600); (1554566400000, -660)] (-600).

(** Zones with one offset in these years: Asia/Kolkata (+05:30) and
    Africa/Dar_es_Salaam (+03:00). *)
Definition zoneKolkata : Zone := mkZone [] (-330).
Definition zoneDarEsSalaam : Zone := mkZone [] (-180).

Definition sampleZones (name : string) : option Zone :=
  if String.eqb name "UTC" then Some zoneUTC
  else if String.eqb name "America/New_York" then Some zoneNewYork
  else if String.eqb name "Australia/Sydney" then Some zoneSydney
  else if String.eqb name "Asia/Kolkata" then Some zoneKolkata
  else if String.eqb name "Africa/Dar_es_Salaam" then Some zoneDarEsSalaam
  else None.

(** A small zone name table for the examples. *)
Definition sampleTable : list (string * string) :=
  [("Australia/Sydney", "Sydney"); ("UTC", "Coordinated Universal Time");
   ("Asia/Kolkata", "Chennai, Kolkata, Mumbai, New Delhi");
   ("America/New_York", "Eastern Time (US & Canada)")]%string.

(** moment's English relative-time table with the default thresholds, the
    quotients taken exactly; it stands for [duration.humanize()] in the
    examples. *)
Definition enHumanize (ms : Z) : string :=
  let a := Z.abs ms in
  let round (p q : Z) := (2 * p + q) / (2 * q) in
  let seconds := round a 1000 in
  let minutes := round a 60000 in
  let hours := round a 3600000 in
  let days := round a 86400000 in
  let months := round (a * 4800) (146097 * 86400000) in
  let years := round (a * 400) (146097 * 86400000) in
  let text (n : Z) (unit : string) : string := (Text.decimal n ++ unit)%string in
  if seconds <=? 44 then "a few seconds"%string
  else if minutes <=? 1 then "a minute"%string
  else if minutes <? 45 then text minutes " minutes"%string
  else if hours <=? 1 then "an hour"%string
  else if hours <? 22 then text hours " hours"%string
  else if days <=? 1 then "a day"%string
  else if days <? 26 then text days " days"%string
  else if months <=? 1 then "a month"%string
  else if months <? 11 then text months " months"%string
  else if years <=? 1 then "a year"%string
  else text years " years"%string.

(** * Properties *)

(** ** Facts about the calendar *)

Module ESFacts.
Import ES.

Lemma DayFromYear_step (y : Z) : DayFromYear (y + 1) = DayFromYear y + DaysInYear y.
Proof.
  unfold DayFromYear, DaysInYear, isLeap.
  destruct (y mod 4 =? 0) eqn:E4; destruct (y mod 100 =? 0) eqn:E100;
    destruct (y mod 400 =? 0) eqn:E400; cbn [andb orb negb];
    rewrite ?Z.eqb_eq, ?Z.eqb_neq in *; lia.
Qed.

Lemma DaysInYear_pos (y : Z) : 365 <= DaysInYear y <= 366.
Proof. unfold DaysInYear; destruct (isLeap y); lia. Qed.

Lemma DayFromYear_mono (a b : Z) : a <= b -> DayFromYear a <= DayFromYear b.
Proof.
  intros Hab. unfold DayFromYear. lia.
Qed.

Lemma DayFromYear_lt (a b : Z) : a < b -> DayFromYear a < DayFromYear b.
Proof.
  intros Hab. assert (DayFromYear (a + 1) <= DayFromYear b) by (apply DayFromYear_mono; lia).
  rewrite DayFromYear_step in H. pose proof (DaysInYear_pos a). lia.
Qed.

Lemma YearFromDay_spec (d : Z) :
  DayFromYear (YearFromDay d) <= d < DayFromYear (YearFromDay d + 1).
Proof.
  unfold YearFromDay.
  set (y := 1970 + 400 * d / 146097).
  destruct (DayFromYear (y + 1) <=? d) eqn:E1.
  - apply Z.leb_le in E1. split; [exact E1|].
    unfold DayFromYear in *. subst y. lia.
  - apply Z.leb_gt in E1.
    destruct (DayFromYear y <=? d) eqn:E2.
    + apply Z.leb_le in E2. lia.
    + apply Z.leb_gt in E2. replace (y - 1 + 1) with y by lia. split; [|exact E2].
      unfold DayFromYear in *. subst y. lia.
Qed.

Lemma YearFromDay_unique (d y : Z) :
  DayFromYear y <= d < DayFromYear (y + 1) -> YearFromDay d = y.
Proof.
  intros [Hlo Hhi]. pose proof (YearFromDay_spec d) as [Slo Shi].
  destruct (Z.lt_trichotomy (YearFromDay d) y) as [Hlt | [Heq | Hgt]]; [|exact Heq|].
  - assert (DayFromYear (YearFromDay d + 1) <= DayFromYear y) by (apply DayFromYear_mono; lia). lia.
  - assert (DayFromYear (y + 1) <= DayFromYear (YearFromDay d)) by (apply DayFromYear_mono; lia). lia.
Qed.

Lemma monthOfYearDay_range (leap d : Z) : 0 <= monthOfYearDay leap d <= 11.
Proof.
  unfold monthOfYearDay.
  repeat match goal with |- context [if ?c then _ else _] => destruct c end; lia.
Qed.

Lemma MakeDay_fields (t : Z) :
  MakeDay (YearFromTime t) (MonthFromTime t) (DateFromTime t) = Day t.
Proof.
  unfold MakeDay, DateFromTime, DayWithinYear, InLeapYear.
  pose proof (monthOfYearDay_range
                (if isLeap (YearFromTime t) then 1 else 0)
                (Day t - DayFromYear (YearFromTime t))) as Hm.
  fold (InLeapYear t) in Hm. fold (DayWithinYear t) in Hm. fold (MonthFromTime t) in Hm.
  rewrite (Z.div_small (MonthFromTime t) 12), (Z.mod_small (MonthFromTime t) 12) by lia.
  rewrite Z.add_0_r. fold (InLeapYear t). lia.
Qed.

Lemma MakeTime_fields (t : Z) :
  MakeTime (HourFromTime t) (MinFromTime t) (SecFromTime t) (msFromTime t) = TimeWithinDay t.
Proof.
  unfold MakeTime, HourFromTime, MinFromTime, SecFromTime, msFromTime, TimeWithinDay,
    msPerHour, msPerMinute, msPerSecond, msPerDay. lia.
Qed.

Lemma MakeDate_fields (t : Z) :
  MakeDate (MakeDay (YearFromTime t) (MonthFromTime t) (DateFromTime t))
           (MakeTime (HourFromTime t) (MinFromTime t) (SecFromTime t) (msFromTime t)) = t.
Proof.
  rewrite MakeDay_fields, MakeTime_fields.
  unfold MakeDate, Day, TimeWithinDay, msPerDay. lia.
Qed.

Lemma timeOfFields_fieldsOf (t : Z) : timeOfFields (fieldsOf t) = t.
Proof. exact (MakeDate_fields t). Qed.

Lemma Day_startOfDay (t : Z) : Day (startOfDay t) = Day t.
Proof. unfold startOfDay, MakeDate, Day, msPerDay. lia. Qed.

Lemma clock_startOfDay (t : Z) :
  HourFromTime (startOfDay t) = 0 /\ MinFromTime (startOfDay t) = 0 /\
  SecFromTime (startOfDay t) = 0 /\ msFromTime (startOfDay t) = 0.
Proof.
  unfold startOfDay, MakeDate, Day, HourFromTime, MinFromTime, SecFromTime, msFromTime,
    msPerHour, msPerMinute, msPerSecond, msPerDay. lia.
Qed.

(** Year, month and day of the month depend on the day number only. *)
Lemma date_fields_of_Day (a b : Z) :
  Day a = Day b ->
  YearFromTime a = YearFromTime b /\ MonthFromTime a = MonthFromTime b /\
  DateFromTime a = DateFromTime b.
Proof.
  intros H. unfold DateFromTime, MonthFromTime, DayWithinYear, InLeapYear, YearFromTime.
  rewrite H. auto.
Qed.

End ESFacts.

(** ** The range of time values *)

Lemma TimeClip_in_range (t : Z) : Z.abs t <= ES.maxTime -> ES.TimeClip t = Some t.
Proof. intros H. unfold ES.TimeClip. apply Z.leb_le in H. now rewrite H. Qed.

Lemma TimeClip_out_of_range (t : Z) : ES.maxTime < Z.abs t -> ES.TimeClip t = None.
Proof. intros H. unfold ES.TimeClip. apply Z.leb_gt in H. now rewrite H. Qed.

Lemma TimeClip_Some (t u : Z) : ES.TimeClip t = Some u -> u = t /\ Z.abs t <= ES.maxTime.
Proof.
  unfold ES.TimeClip. destruct (Z.abs t <=? ES.maxTime) eqn:E; [|discriminate].
  intros [= <-]. apply Z.leb_le in E. auto.
Qed.

(** ** Shifting by days and hours *)

Lemma shift_in_range (t millis : Z) :
  Z.abs (t + millis) <= ES.maxTime -> shift (Some t) millis = Some (t + millis).
Proof. intros H. unfold shift, newDateOfValue, valueOf. cbn. now apply TimeClip_in_range. Qed.

(** C7, as stated, fails where the shifted value leaves the range of [Date]:
    100000001 days after the epoch there is no time value, and shifting back
    does not recover the instant. *)
Lemma shiftDate_out_of_range :
  isInstant (Some 0) /\
  shiftDate (Some 0) 100000001 = None /\
  shiftDate (shiftDate (Some 0) 100000001) (- 100000001) <> Some 0.
Proof.
  split; [exists 0; split; [reflexivity | vm_compute; discriminate]|].
  split; [reflexivity | vm_compute; discriminate].
Qed.

(** C7 (amended): for an Instant [t] and an integer [n] with
    [t + n * 86400000] inside the range of [Date], [shiftDate t n] has
    exactly that time value, and shifting back by [-n] returns [t]. *)
Theorem shiftDate_value_and_back (t n : Z) :
  Z.abs t <= ES.maxTime ->
  Z.abs (t + n * 86400000) <= ES.maxTime ->
  shiftDate (Some t) n = Some (t + n * 86400000) /\
  shiftDate (shiftDate (Some t) n) (- n) = Some t.
Proof.
  intros Ht Hn.
  assert (E : shiftDate (Some t) n = Some (t + n * 86400000)).
  { unfold shiftDate. rewrite shift_in_range; [f_equal; lia|].
    replace (t + n * 24 * 60 * 60 * 1000) with (t + n * 86400000) by lia. exact Hn. }
  split; [exact E|].
  rewrite E. unfold shiftDate. rewrite shift_in_range; [f_equal; lia|].
  replace (t + n * 86400000 + - n * 24 * 60 * 60 * 1000) with t by lia. exact Ht.
Qed.

Lemma shiftDate_value_and_back_witness :
  shiftDate (Some 1516710896789) (-1) = Some (1516710896789 + -1 * 86400000) /\
  shiftDate (shiftDate (Some 1516710896789) (-1)) (- -1) = Some 1516710896789.
Proof.
  apply (shiftDate_value_and_back 1516710896789 (-1)); unfold ES.maxTime; lia.
Defined.

(** C10, as stated, fails when the intermediate date leaves the range. *)
Lemma shiftDate_compose_out_of_range :
  isInstant (Some 0) /\
  shiftDate (shiftDate (Some 0) 100000001) (- 100000001)
    <> shiftDate (Some 0) (100000001 + - 100000001).
Proof.
  split; [exists 0; split; [reflexivity | vm_compute; discriminate]|].
  vm_compute; discriminate.
Qed.

(** C10 (amended): when the intermediate [shiftDate t a] stays inside the
    range of [Date], shifting by [a] and then by [b] days is shifting by
    [a + b] days; and shifting by [24 * n] hours is always shifting by [n]
    days. *)
Theorem shiftDate_compose_shiftHour (t a b n : Z) :
  Z.abs (t + a * 86400000) <= ES.maxTime ->
  shiftDate (shiftDate (Some t) a) b = shiftDate (Some t) (a + b) /\
  shiftHour (Some t) (24 * n) = shiftDate (Some t) n.
Proof.
  intros Ha. split.
  - unfold shiftDate at 2. rewrite shift_in_range
      by (replace (t + a * 24 * 60 * 60 * 1000) with (t + a * 86400000) by lia; exact Ha).
    unfold shiftDate, shift, newDateOfValue, valueOf. cbn. f_equal. lia.
  - unfold shiftHour, shiftDate. f_equal. lia.
Qed.

Lemma shiftDate_compose_shiftHour_witness :
  shiftDate (shiftDate (Some 1516710896789) 3) (-5) = shiftDate (Some 1516710896789) (3 + -5) /\
  shiftHour (Some 1516710896789) (24 * 2) = shiftDate (Some 1516710896789) 2.
Proof.
  apply (shiftDate_compose_shiftHour 1516710896789 3 (-5) 2); unfold ES.maxTime; lia.
Defined.

(** ** Truncation to the start of the day *)

Section ToDate.

Variable LocalTZA : Z -> bool -> Z.

Abbreviation LT := (LocalTime LocalTZA).
Abbreviation toUTC := (UTC LocalTZA).

(** What [toDate] computes when the local year is outside 0..99: the
    default-zone reading of local midnight of [t]'s day. *)
Lemma toDate_unfold (t : Z) :
  ~ (0 <= ES.YearFromTime (LT t) <= 99) ->
  toDate LocalTZA (Some t) = ES.TimeClip (toUTC (ES.startOfDay (LT t))).
Proof.
  intros Hy. unfold toDate, newDate, getFullYear, getMonth, getDate. cbn.
  destruct ((0 <=? ES.YearFromTime (LT t)) && (ES.YearFromTime (LT t) <=? 99)) eqn:E.
  - apply andb_prop in E as [E1 E2]. apply Z.leb_le in E1, E2. lia.
  - rewrite ESFacts.MakeDay_fields. reflexivity.
Qed.

(** C8 (amended): for an Instant [t] whose local year is outside 0..99 and
    whose local midnight exists in the default zone and lies inside the
    range of [Date], [toDate t] is that midnight: its hour, minute, second
    and millisecond in the default zone are zero and its year, month and day
    of the month are those of [t]. *)
Theorem toDate_fields (t : Z) :
  let r := toUTC (ES.startOfDay (LT t)) in
  ~ (0 <= ES.YearFromTime (LT t) <= 99) ->
  Z.abs r <= ES.maxTime ->
  LT r = ES.startOfDay (LT t) ->
  toDate LocalTZA (Some t) = Some r /\
  (getHours LocalTZA (Some r) = Some 0 /\ getMinutes LocalTZA (Some r) = Some 0 /\
   getSeconds LocalTZA (Some r) = Some 0 /\ getMilliseconds LocalTZA (Some r) = Some 0) /\
  (getFullYear LocalTZA (Some r) = getFullYear LocalTZA (Some t) /\
   getMonth LocalTZA (Some r) = getMonth LocalTZA (Some t) /\
   getDate LocalTZA (Some r) = getDate LocalTZA (Some t)).
Proof.
  intros r Hy Hr Hm.
  split; [rewrite toDate_unfold by exact Hy; now apply TimeClip_in_range|].
  unfold getHours, getMinutes, getSeconds, getMilliseconds, getFullYear, getMonth, getDate.
  cbn. rewrite Hm.
  destruct (ESFacts.clock_startOfDay (LT t)) as (Hh & Hmi & Hs & Hms).
  destruct (ESFacts.date_fields_of_Day _ _ (ESFacts.Day_startOfDay (LT t))) as (Ey & Emo & Ed).
  rewrite Hh, Hmi, Hs, Hms, Ey, Emo, Ed. auto.
Qed.

(** C9 (amended): for an Instant [t] whose local year is outside 0..99 and
    whose local midnight is mapped by the default zone to an instant of the
    same local day inside the range of [Date], [toDate] is idempotent at [t]
    and [toDate t] is on the same day as [t]. *)
Theorem toDate_idempotent_sameDay (t : Z) :
  let r := toUTC (ES.startOfDay (LT t)) in
  ~ (0 <= ES.YearFromTime (LT t) <= 99) ->
  Z.abs r <= ES.maxTime ->
  ES.Day (LT r) = ES.Day (LT t) ->
  toDate LocalTZA (toDate LocalTZA (Some t)) = toDate LocalTZA (Some t) /\
  isSameDay LocalTZA (toDate LocalTZA (Some t)) (Some t) = true.
Proof.
  intros r Hy Hr Hd.
  assert (E : toDate LocalTZA (Some t) = Some r)
    by (rewrite toDate_unfold by exact Hy; now apply TimeClip_in_range).
  destruct (ESFacts.date_fields_of_Day _ _ Hd) as (Ey & Emo & Ed).
  rewrite E. split.
  - rewrite toDate_unfold by (rewrite Ey; exact Hy).
    unfold ES.startOfDay at 1. rewrite Hd. fold (ES.startOfDay (LT t)).
    now apply TimeClip_in_range.
  - unfold isSameDay, getFullYear, getMonth, getDate, strictEq. cbn.
    rewrite Ey, Emo, Ed, !Z.eqb_refl. reflexivity.
Qed.

End ToDate.

(** C8, as stated, fails in a default zone whose day does not start at
    00:00: in America/Sao_Paulo on 2018-11-04 (15:00:00Z is 13:00 local) the
    truncated date reads 01:00.  It fails as well at the first instant of
    the range of [Date] with the default zone at +01:00 (the local midnight
    lies before the range), and for a year from 0 to 99 (the truncation of
    0068-06-15T12:00:00Z is in 1968). *)
Lemma toDate_fails :
  (isInstant (Some 1541343600000) /\
   toDate saoPauloTZA (Some 1541343600000) = Some 1541300400000 /\
   getHours saoPauloTZA (toDate saoPauloTZA (Some 1541343600000)) = Some 1) /\
  (isInstant (Some (- 8640000000000000)) /\
   toDate (fixedTZA 3600000) (Some (- 8640000000000000)) = None) /\
  (isInstant (Some (-60006916800000)) /\
   getFullYear utcTZA (Some (-60006916800000)) = Some 68 /\
   getFullYear utcTZA (toDate utcTZA (Some (-60006916800000))) = Some 1968).
Proof.
  split; [|split].
  - split; [exists 1541343600000; split; [reflexivity | vm_compute; discriminate]|].
    split; reflexivity.
  - split; [exists (- 8640000000000000); split; [reflexivity | vm_compute; discriminate]|].
    vm_compute; reflexivity.
  - split; [exists (-60006916800000); split; [reflexivity | vm_compute; discriminate]|].
    split; reflexivity.
Qed.

Lemma toDate_fields_witness :
  toDate utcTZA (Some 1516710896789) = Some (UTC utcTZA (ES.startOfDay (LocalTime utcTZA 1516710896789))) /\
  (getHours utcTZA (Some 1516665600000) = Some 0 /\ getMinutes utcTZA (Some 1516665600000) = Some 0 /\
   getSeconds utcTZA (Some 1516665600000) = Some 0 /\ getMilliseconds utcTZA (Some 1516665600000) = Some 0) /\
  (getFullYear utcTZA (Some 1516665600000) = getFullYear utcTZA (Some 1516710896789) /\
   getMonth utcTZA (Some 1516665600000) = getMonth utcTZA (Some 1516710896789) /\
   getDate utcTZA (Some 1516665600000) = getDate utcTZA (Some 1516710896789)).
Proof.
  apply (toDate_fields utcTZA 1516710896789).
  - vm_compute. intros [_ H]. apply H. reflexivity.
  - vm_compute. discriminate.
  - reflexivity.
Defined.

(** C9, as stated, fails at the edge of the range of [Date]: with the
    default zone at +01:00, the local midnight of the first day of the range
    lies before the range, so [toDate] of the first instant is an Invalid
    Date, which is on no day.  It also fails for a year from 0 to 99, which
    [new Date(y, m, d)] reads as 1900 + y: with UTC as the default zone, the
    truncation of 0068-06-15T12:00:00Z is 1968-06-15T00:00:00Z. *)
Lemma toDate_not_same_day :
  (isInstant (Some (- 8640000000000000)) /\
   toDate (fixedTZA 3600000) (Some (- 8640000000000000)) = None /\
   isSameDay (fixedTZA 3600000) (toDate (fixedTZA 3600000) (Some (- 8640000000000000)))
             (Some (- 8640000000000000)) = false) /\
  (isInstant (Some (-60006916800000)) /\
   toDate utcTZA (Some (-60006916800000)) = Some (-48816000000) /\
   isSameDay utcTZA (toDate utcTZA (Some (-60006916800000))) (Some (-60006916800000)) = false).
Proof.
  split.
  - split; [exists (- 8640000000000000); split; [reflexivity | vm_compute; discriminate]|].
    split; vm_compute; reflexivity.
  - split; [exists (-60006916800000); split; [reflexivity | vm_compute; discriminate]|].
    split; reflexivity.
Qed.

Lemma toDate_idempotent_sameDay_witness :
  toDate saoPauloTZA (toDate saoPauloTZA (Some 1541343600000)) = toDate saoPauloTZA (Some 1541343600000) /\
  isSameDay saoPauloTZA (toDate saoPauloTZA (Some 1541343600000)) (Some 1541343600000) = true.
Proof.
  apply (toDate_idempotent_sameDay saoPauloTZA 1541343600000).
  - vm_compute. intros [_ H]. apply H. reflexivity.
  - vm_compute. discriminate.
  - reflexivity.
Defined.

(** ** Moments in a known zone *)

Section KnownZone.

Variable getZone : string -> option Zone.

(** The moment [moment(t).tz(zone)] of a known zone: [_d] holds the zone's
    wall-clock reading of [t]. *)
Lemma moment_tz_known (t : Z) (name : string) (z : Zone) :
  getZone name = Some z ->
  Z.abs (t - Zone_utcOffset z t * 60000) <= ES.maxTime ->
  moment_tz getZone (mkMoment (Some t) 0 false) name
    = mkMoment (Some (t - Zone_utcOffset z t * 60000)) (- Zone_utcOffset z t) true
  /\ moment_tz getZone (mkMoment (Some t) 0 true) name
    = mkMoment (Some (t - Zone_utcOffset z t * 60000)) (- Zone_utcOffset z t) true.
Proof.
  intros Hz Hw. unfold moment_tz, moment_valueOf, moment_setOffset. rewrite Hz.
  cbn [m_d m_offset m_isUTC bindN].
  replace (t - 0 * 60000) with t by lia.
  destruct (0 =? - Zone_utcOffset z t) eqn:E.
  - apply Z.eqb_eq in E. replace (Zone_utcOffset z t) with 0 by lia.
    replace (t - 0 * 60000) with t by lia. auto.
  - replace (t + (- Zone_utcOffset z t - 0) * 60000) with (t - Zone_utcOffset z t * 60000) by lia.
    rewrite TimeClip_in_range by exact Hw. auto.
Qed.

End KnownZone.

Lemma moment_addMinutes_in_range (t n off : Z) (utc : bool) :
  Z.abs (t + n * 60000) <= ES.maxTime ->
  moment_addMinutes (mkMoment (Some t) off utc) n = mkMoment (Some (t + n * 60000)) off utc.
Proof.
  intros H. unfold moment_addMinutes. cbn [m_d m_offset m_isUTC].
  destruct (n =? 0) eqn:E.
  - apply Z.eqb_eq in E. subst n. do 2 f_equal. lia.
  - now rewrite TimeClip_in_range.
Qed.

(** ** Zoned to local and back *)

Section RoundTrip.

Variable LocalTZA : Z -> bool -> Z.
Variable getZone : string -> option Zone.

Lemma newDateOfFields_fieldsOf (w : Z) :
  ~ (0 <= ES.YearFromTime w <= 99) ->
  newDateOfFields LocalTZA (Some (ES.fieldsOf w)) = ES.TimeClip (UTC LocalTZA w).
Proof.
  intros Hy. unfold newDateOfFields, newDate, ES.fieldsOf.
  cbn [ES.f_year ES.f_month ES.f_date ES.f_hour ES.f_minute ES.f_second ES.f_ms bindN].
  destruct ((0 <=? ES.YearFromTime w) && (ES.YearFromTime w <=? 99)) eqn:E.
  - apply andb_prop in E as [E1 E2]. apply Z.leb_le in E1, E2. lia.
  - rewrite ESFacts.MakeDate_fields. reflexivity.
Qed.

(** [zonedToLocal] in a known zone: the date whose default-zone fields are
    the wall-clock reading [w] of [t] in the zone. *)
Lemma zonedToLocal_known (t : Z) (name : string) (z : Zone) :
  let w := t - Zone_utcOffset z t * 60000 in
  getZone name = Some z -> isEmpty name = false ->
  Z.abs w <= ES.maxTime ->
  ~ (0 <= ES.YearFromTime w <= 99) ->
  zonedToLocal LocalTZA getZone (Some t) name = Returned (ES.TimeClip (UTC LocalTZA w)).
Proof.
  intros w Hz Hne Hw Hy. unfold zonedToLocal. rewrite Hne. unfold moment.
  destruct (moment_tz_known getZone t name z Hz Hw) as [E1 _]. rewrite E1.
  unfold moment_fields; cbn [m_d m_isUTC]. fold w.
  now rewrite newDateOfFields_fieldsOf.
Qed.

(** [localToZoned] in a known zone: the default-zone reading [w] of the
    local date, moved by the offset the zone resolves for [w]. *)
Lemma localToZoned_known (l : Z) (name : string) (z : Zone) :
  let w := LocalTime LocalTZA l in
  let r := w + Zone_parse z w * 60000 in
  getZone name = Some z -> isEmpty name = false ->
  Z.abs w <= ES.maxTime -> Z.abs r <= ES.maxTime ->
  Z.abs (r - Zone_utcOffset z r * 60000) <= ES.maxTime ->
  localToZoned LocalTZA getZone (Some l) name = Returned (Some r).
Proof.
  intros w r Hz Hne Hw Hr Hs.
  unfold localToZoned, dateFields. cbn [option_map]. fold w.
  unfold moment_tz_array, moment_utc_array, createUTCDate.
  rewrite ESFacts.timeOfFields_fieldsOf, TimeClip_in_range by exact Hw.
  rewrite Hz, Hne. unfold moment_valueOf at 1. cbn [m_d m_offset bindN].
  replace (w - 0 * 60000) with w by lia.
  rewrite moment_addMinutes_in_range by exact Hr. fold r.
  destruct (moment_tz_known getZone r name z Hz Hs) as [_ E2]. rewrite E2.
  unfold moment_toDate, moment_valueOf, newDateOfValue. cbn [m_d m_offset bindN].
  replace (r - Zone_utcOffset z r * 60000 - - Zone_utcOffset z r * 60000) with r by lia.
  now rewrite TimeClip_in_range.
Qed.

(** C1 (amended): let [w] be the wall-clock reading of the Instant [t] in
    the known zone [z].  If the year of [w] is outside 0..99, [w] exists in
    the default zone (the default zone maps it to an instant that reads back
    as [w]), [z] resolves the reading [w] to the offset in force at [t]
    (so [t] is not in the repeated hour after a backward transition), and
    the intermediate values are inside the range of [Date], then
    [localToZoned(zonedToLocal(t, z), z)] is [t]. *)
Theorem zoned_local_round_trip (t : Z) (name : string) (z : Zone) :
  let w := t - Zone_utcOffset z t * 60000 in
  getZone name = Some z ->
  isEmpty name = false ->
  Z.abs t <= ES.maxTime ->
  Z.abs w <= ES.maxTime ->
  Z.abs (UTC LocalTZA w) <= ES.maxTime ->
  ~ (0 <= ES.YearFromTime w <= 99) ->
  LocalTime LocalTZA (UTC LocalTZA w) = w ->
  Zone_parse z w = Zone_utcOffset z t ->
  andThen (zonedToLocal LocalTZA getZone (Some t) name)
          (fun l => localToZoned LocalTZA getZone l name)
    = Returned (Some t).
Proof.
  intros w Hz Hne Ht Hw Hl Hy Hex Hp.
  rewrite (zonedToLocal_known t name z Hz Hne Hw Hy). fold w.
  rewrite TimeClip_in_range by exact Hl. cbn [andThen].
  assert (Et : LocalTime LocalTZA (UTC LocalTZA w)
               + Zone_parse z (LocalTime LocalTZA (UTC LocalTZA w)) * 60000 = t)
    by (rewrite Hex, Hp; subst w; lia).
  rewrite (localToZoned_known (UTC LocalTZA w) name z Hz Hne); rewrite ?Et, ?Hex; auto.
Qed.

End RoundTrip.

(** C1, as stated, fails in the repeated hour of a zone: 2018-11-04T06:30Z
    is the second 01:30 of that day in America/New_York; the local value
    reads 01:30 and [moment.tz] resolves 01:30 to the first one, an hour
    earlier.  It fails as well when the reading does not exist in the
    default zone (00:30 on 2018-11-04 in America/Sao_Paulo, read back as
    01:30), when the reading lies outside the range of [Date] (the last
    instant of the range, read in Asia/Kolkata), and for a year from 0 to 99
    (0068-06-15T12:00Z comes back in 1968). *)
Lemma round_trip_fails :
  (isInstant (Some 1541313000000) /\
   sampleZones "America/New_York" = Some zoneNewYork /\
   andThen (zonedToLocal utcTZA sampleZones (Some 1541313000000) "America/New_York")
           (fun l => localToZoned utcTZA sampleZones l "America/New_York")
     = Returned (Some 1541309400000)) /\
  (isInstant (Some 1541291400000) /\
   andThen (zonedToLocal saoPauloTZA sampleZones (Some 1541291400000) "UTC")
           (fun l => localToZoned saoPauloTZA sampleZones l "UTC")
     = Returned (Some 1541295000000)) /\
  (isInstant (Some 8640000000000000) /\
   andThen (zonedToLocal utcTZA sampleZones (Some 8640000000000000) "Asia/Kolkata")
           (fun l => localToZoned utcTZA sampleZones l "Asia/Kolkata")
     = Returned None) /\
  (isInstant (Some (-60006916800000)) /\
   andThen (zonedToLocal utcTZA sampleZones (Some (-60006916800000)) "UTC")
           (fun l => localToZoned utcTZA sampleZones l "UTC")
     = Returned (Some (-48772800000))).
Proof.
  split; [|split; [|split]].
  - split; [exists 1541313000000; split; [reflexivity | vm_compute; discriminate]|].
    split; reflexivity.
  - split; [exists 1541291400000; split; [reflexivity | vm_compute; discriminate]|].
    reflexivity.
  - split; [exists 8640000000000000; split; [reflexivity | vm_compute; discriminate]|].
    reflexivity.
  - split; [exists (-60006916800000); split; [reflexivity | vm_compute; discriminate]|].
    reflexivity.
Qed.

Lemma zoned_local_round_trip_witness :
  andThen (zonedToLocal (fixedTZA (-28800000)) sampleZones (Some 1516710896789) "America/New_York")
          (fun l => localToZoned (fixedTZA (-28800000)) sampleZones l "America/New_York")
    = Returned (Some 1516710896789).
Proof.
  apply (zoned_local_round_trip (fixedTZA (-28800000)) sampleZones
           1516710896789 "America/New_York" zoneNewYork).
  - reflexivity.
  - reflexivity.
  - vm_compute; discriminate.
  - vm_compute; discriminate.
  - vm_compute; discriminate.
  - vm_compute. intros [_ H]. apply H. reflexivity.
  - reflexivity.
  - reflexivity.
Defined.

(** For a zone with a single offset (UTC, or any zone without transitions)
    and a default zone with a constant offset, the round trip holds for every
    instant whose reading has a year outside 0..99 and is inside the range. *)
Lemma round_trip_constant_offsets (envOffset zoneOffset t : Z) (getZone : string -> option Zone)
      (name : string) :
  let w := t - zoneOffset * 60000 in
  getZone name = Some (mkZone [] zoneOffset) ->
  isEmpty name = false ->
  Z.abs t <= ES.maxTime -> Z.abs w <= ES.maxTime -> Z.abs (w - envOffset) <= ES.maxTime ->
  ~ (0 <= ES.YearFromTime w <= 99) ->
  andThen (zonedToLocal (fixedTZA envOffset) getZone (Some t) name)
          (fun l => localToZoned (fixedTZA envOffset) getZone l name)
    = Returned (Some t).
Proof.
  intros w Hz Hne Ht Hw Hl Hy.
  rewrite (zonedToLocal_known (fixedTZA envOffset) getZone t name _ Hz Hne Hw Hy).
  cbn [Zone_utcOffset offsetIn z_segments z_last]. fold w.
  unfold UTC, fixedTZA. rewrite TimeClip_in_range by exact Hl. cbn [andThen].
  assert (Ew : LocalTime (fun _ _ => envOffset) (w - envOffset) = w)
    by (unfold LocalTime; lia).
  assert (Et : w + zoneOffset * 60000 = t) by (subst w; lia).
  rewrite (localToZoned_known (fun _ _ => envOffset) getZone (w - envOffset) name _ Hz Hne);
    rewrite ?Ew; cbn [Zone_parse Zone_utcOffset parseIn offsetIn z_segments z_last];
    rewrite ?Et; first [reflexivity | assumption | (fold w; exact Hw)].
Qed.

(** ** Unrecognized zone identifiers *)

Section UnknownZone.

Variable LocalTZA : Z -> bool -> Z.
Variable getZone : string -> option Zone.


End UnknownZone.



(** ** Parsing in a zone *)

Section ParseInZone.

Variable LocalTZA : Z -> bool -> Z.
Variable getZone : string -> option Zone.
Variable parseString : string -> option Parsed.

Lemma moment_tz_toDate (v : Z) (name : string) :
  Z.abs v <= ES.maxTime ->
  (forall z, getZone name = Some z -> Z.abs (v - Zone_utcOffset z v * 60000) <= ES.maxTime) ->
  moment_toDate (moment_tz getZone (mkMoment (Some v) 0 true) name) = Some v.
Proof.
  intros Hv Hz. destruct (getZone name) as [z|] eqn:E.
  - destruct (moment_tz_known getZone v name z E (Hz z eq_refl)) as [_ ->].
    unfold moment_toDate, moment_valueOf, newDateOfValue. cbn [m_d m_offset bindN].
    replace (v - Zone_utcOffset z v * 60000 - - Zone_utcOffset z v * 60000) with v by lia.
    now apply TimeClip_in_range.
  - unfold moment_tz. rewrite E.
    unfold moment_toDate, moment_valueOf, newDateOfValue. cbn [m_d m_offset bindN].
    replace (v - 0 * 60000) with v by lia. now apply TimeClip_in_range.
Qed.


End ParseInZone.

(** The two parses of the test suite. *)
Example parseInZone_without_offset :
  parseInZone utcTZA sampleZones ISO.parse "2018-01-23T12:34:56.789" (Some "Australia/Sydney"%string)
    = newDateOfString utcTZA ISO.parse "2018-01-23T12:34:56.789+1100".
Proof. reflexivity. Qed.

Example parseInZone_with_offset :
  parseInZone utcTZA sampleZones ISO.parse "2018-01-23T12:34:56.789+0000" (Some "Australia/Sydney"%string)
    = Some 1516710896789.
Proof. reflexivity. Qed.



(** ** Facts about decimal text *)

Module TextFacts.
Import Text.

Lemma digit_digitChar (d : Z) : isDigit d -> ISO.digit (digitChar d) = Some d.
Proof.
  unfold isDigit. intros H.
  assert (C : d = 0 \/ d = 1 \/ d = 2 \/ d = 3 \/ d = 4 \/ d = 5 \/ d = 6 \/ d = 7 \/ d = 8 \/ d = 9)
    by lia.
  repeat (destruct C as [-> | C]; [reflexivity|]). subst d. reflexivity.
Qed.

Lemma digitsPrefix_digits (ds : list Z) :
  Forall isDigit ds -> digitsPrefix (map digitChar ds) = ds.
Proof.
  induction 1 as [|d ds Hd _ IH]; [reflexivity|].
  cbn [map digitsPrefix]. now rewrite digit_digitChar, IH.
Qed.

Lemma valueOfDigits_rev (ds : list Z) : valueOfDigits (rev ds) = valueLE ds.
Proof.
  induction ds as [|d ds IH]; [reflexivity|].
  cbn [rev valueLE fold_right]. fold (valueLE ds). rewrite <- IH.
  unfold valueOfDigits. rewrite fold_left_app. cbn [fold_left]. lia.
Qed.

Lemma digitsLE_spec (fuel : nat) (n : Z) :
  0 <= n < 2 ^ Z.of_nat (S fuel) ->
  valueLE (digitsLE (S fuel) n) = n /\ Forall isDigit (digitsLE (S fuel) n)
  /\ digitsLE (S fuel) n <> [].
Proof.
  revert n. induction fuel as [|f IH]; intros n Hn.
  - assert (E : (n <? 10) = true) by (apply Z.ltb_lt; cbn in Hn; lia).
    cbn [digitsLE]. rewrite E. repeat split.
    + cbn. lia.
    + constructor; [unfold isDigit; cbn in Hn; lia | constructor].
    + discriminate.
  - remember (S f) as g. cbn [digitsLE]. destruct (n <? 10) eqn:E.
    + apply Z.ltb_lt in E. repeat split.
      * cbn. lia.
      * constructor; [unfold isDigit; lia | constructor].
      * discriminate.
    + apply Z.ltb_ge in E. subst g.
      assert (Hq : 0 <= n / 10 < 2 ^ Z.of_nat (S f)).
      { rewrite (Nat2Z.inj_succ (S f)), Z.pow_succ_r in Hn by lia. lia. }
      destruct (IH _ Hq) as (Hv & Hd & _). repeat split.
      * cbn [valueLE fold_right]. fold (valueLE (digitsLE (S f) (n / 10))). rewrite Hv. lia.
      * constructor; [unfold isDigit; lia | exact Hd].
      * discriminate.
Qed.

Lemma digitsOf_spec (n : Z) :
  0 <= n ->
  valueOfDigits (digitsOf n) = n /\ Forall isDigit (digitsOf n) /\ digitsOf n <> [].
Proof.
  intros Hn. unfold digitsOf.
  assert (Hf : 0 <= n < 2 ^ Z.of_nat (S (Z.to_nat (Z.log2 n)))).
  { rewrite Nat2Z.inj_succ, Z2Nat.id by apply Z.log2_nonneg.
    destruct (Z.eq_dec n 0) as [->|Hz]; [cbn; lia|].
    pose proof (Z.log2_spec n ltac:(lia)). lia. }
  destruct (digitsLE_spec _ _ Hf) as (Hv & Hd & Hne).
  rewrite valueOfDigits_rev. repeat split; [exact Hv | | ].
  - apply Forall_rev. exact Hd.
  - intros E. apply (f_equal (@rev Z)) in E. rewrite rev_involutive in E. cbn [rev] in E. auto.
Qed.

Lemma zeroFill2_digits (n : Z) :
  zeroFill2 n = string_of_list_ascii (map digitChar (zeroFill2Digits n)).
Proof. unfold zeroFill2, zeroFill2Digits, decimal. destruct (n <? 10); reflexivity. Qed.

Lemma zeroFill2Digits_spec (n : Z) :
  0 <= n ->
  valueOfDigits (zeroFill2Digits n) = n /\ Forall isDigit (zeroFill2Digits n).
Proof.
  intros Hn. destruct (digitsOf_spec n Hn) as (Hv & Hd & _).
  unfold zeroFill2Digits. destruct (n <? 10); [|auto].
  split; [exact Hv|]. constructor; [unfold isDigit; lia | exact Hd].
Qed.

(** Below 100, [zeroFill2] writes exactly two digits. *)
Lemma zeroFill2Digits_two (n : Z) :
  0 <= n < 100 -> zeroFill2Digits n = [n / 10; n mod 10].
Proof.
  intros Hn. unfold zeroFill2Digits, digitsOf.
  destruct (n <? 10) eqn:E.
  - apply Z.ltb_lt in E. cbn [digitsLE]. rewrite (proj2 (Z.ltb_lt n 10) E).
    cbn [rev app]. rewrite Z.div_small, Z.mod_small by lia. reflexivity.
  - apply Z.ltb_ge in E.
    assert (Hl : 3 <= Z.log2 n) by (apply Z.log2_le_pow2; cbn; lia).
    destruct (Z.to_nat (Z.log2 n)) as [|k] eqn:Ek; [lia|].
    cbn [digitsLE]. rewrite (proj2 (Z.ltb_ge n 10) E).
    assert (Hq : (n / 10 <? 10) = true) by (apply Z.ltb_lt; lia).
    rewrite Hq. reflexivity.
Qed.

Lemma valueOfDigits_app2 (ds : list Z) (a b : Z) :
  valueOfDigits (ds ++ [a; b]) = 100 * valueOfDigits ds + 10 * a + b.
Proof. unfold valueOfDigits. rewrite fold_left_app. cbn [fold_left]. lia. Qed.

Lemma list_ascii_of_string_app (s1 s2 : string) :
  list_ascii_of_string (s1 ++ s2) = list_ascii_of_string s1 ++ list_ascii_of_string s2.
Proof. induction s1 as [|c s1 IH]; [reflexivity|]. cbn. now rewrite IH. Qed.

End TextFacts.

(** ** The sort key of [sortZones] *)

Lemma parseInt_signed (neg : bool) (ds : list Z) :
  Forall isDigit ds -> ds <> [] ->
  Text.parseInt (string_of_list_ascii
                   ((if neg then "-"%char else "+"%char) :: map Text.digitChar ds))
  = Some (if neg then - Text.valueOfDigits ds else Text.valueOfDigits ds).
Proof.
  intros Hd Hne. unfold Text.parseInt. rewrite list_ascii_of_string_of_list_ascii.
  destruct neg; rewrite (TextFacts.digitsPrefix_digits _ Hd);
    (destruct ds as [|d ds]; [contradiction | reflexivity]).
Qed.

Lemma parseInt_offsetText (off : Z) :
  Text.parseInt (offsetText "" off) = Some (zzKey off).
Proof.
  unfold offsetText, zzKey. set (a := Z.abs off).
  assert (Ha : 0 <= a) by (subst a; lia).
  destruct (TextFacts.zeroFill2Digits_spec (a / 60) ltac:(lia)) as (Hv & Hd).
  assert (Hm : 0 <= a mod 60 < 100) by lia.
  pose proof (TextFacts.zeroFill2Digits_two _ Hm) as H2.
  set (dh := zeroFill2Digits (a / 60)) in *.
  set (ds := dh ++ [a mod 60 / 10; a mod 60 mod 10]).
  assert (Hbody : forall sg : ascii,
             (String sg "" ++ Text.zeroFill2 (a / 60) ++ "" ++ Text.zeroFill2 (a mod 60))%string
             = string_of_list_ascii (sg :: map Text.digitChar ds)).
  { intros sg. rewrite <- (string_of_list_ascii_of_string (_ ++ _)%string). f_equal.
    rewrite !TextFacts.list_ascii_of_string_app, !TextFacts.zeroFill2_digits.
    rewrite !list_ascii_of_string_of_list_ascii, H2. cbn [list_ascii_of_string app].
    fold dh. subst ds. now rewrite map_app. }
  assert (Hds : Forall isDigit ds).
  { apply Forall_app. split; [exact Hd|].
    repeat constructor; unfold isDigit; lia. }
  assert (Hne : ds <> []) by (subst ds; destruct dh; discriminate).
  assert (Hval : Text.valueOfDigits ds = 100 * (a / 60) + a mod 60).
  { subst ds. rewrite TextFacts.valueOfDigits_app2, Hv. lia. }
  destruct (off <? 0).
  - rewrite (Hbody "-"%char), (parseInt_signed true ds Hds Hne), Hval. reflexivity.
  - rewrite (Hbody "+"%char), (parseInt_signed false ds Hds Hne), Hval. reflexivity.
Qed.

Lemma zzKey_lt (a b : Z) : a < b -> zzKey a < zzKey b.
Proof.
  intros H. unfold zzKey.
  destruct (a <? 0) eqn:Ea; destruct (b <? 0) eqn:Eb;
    rewrite ?Z.ltb_lt, ?Z.ltb_ge in *; lia.
Qed.

Lemma zzKey_compare (a b : Z) : (zzKey a ?= zzKey b) = (a ?= b).
Proof.
  destruct (Z.compare_spec a b) as [-> | H | H].
  - apply Z.compare_refl.
  - apply Z.compare_lt_iff. now apply zzKey_lt.
  - apply Z.compare_gt_iff. now apply zzKey_lt.
Qed.

(** ** The order of identifiers *)

Lemma ascii_compare_lt_trans (a b c : ascii) :
  Ascii.compare a b = Lt -> Ascii.compare b c = Lt -> Ascii.compare a c = Lt.
Proof.
  unfold Ascii.compare. rewrite !N.compare_lt_iff. apply N.lt_trans.
Qed.

Lemma string_compare_lt_trans (a b c : string) :
  String.compare a b = Lt -> String.compare b c = Lt -> String.compare a c = Lt.
Proof.
  revert b c. induction a as [|x a IH]; intros [|y b] [|z c]; cbn; try discriminate; auto.
  destruct (Ascii.compare x y) eqn:Exy; try discriminate;
    destruct (Ascii.compare y z) eqn:Eyz; try discriminate; intros H1 H2.
  - apply Ascii.compare_eq_iff in Exy, Eyz. subst. 
    assert (E : Ascii.compare z z = Eq) by (unfold Ascii.compare; apply N.compare_refl).
    rewrite E. eauto.
  - apply Ascii.compare_eq_iff in Exy. subst. now rewrite Eyz.
  - apply Ascii.compare_eq_iff in Eyz. subst. now rewrite Exy.
  - now rewrite (ascii_compare_lt_trans _ _ _ Exy Eyz).
Qed.

Lemma string_compare_refl (a : string) : String.compare a a = Eq.
Proof.
  induction a as [|x a IH]; [reflexivity|]. cbn.
  assert (E : Ascii.compare x x = Eq) by (unfold Ascii.compare; apply N.compare_refl).
  now rewrite E.
Qed.

Lemma string_leb_trans (a b c : string) :
  String.leb a b = true -> String.leb b c = true -> String.leb a c = true.
Proof.
  unfold String.leb.
  destruct (String.compare a b) eqn:Eab; try discriminate;
    destruct (String.compare b c) eqn:Ebc; try discriminate; intros _ _.
  - apply String.compare_eq_iff in Eab, Ebc. subst. now rewrite string_compare_refl.
  - apply String.compare_eq_iff in Eab. subst. now rewrite Ebc.
  - apply String.compare_eq_iff in Ebc. subst. now rewrite Eab.
  - now rewrite (string_compare_lt_trans _ _ _ Eab Ebc).
Qed.

(** ** Facts about the stable sort *)

Lemma entryLe_total (a b : ZoneEntry) :
  hasOffset a -> hasOffset b -> entryLe a b = false -> entryLe b a = true.
Proof.
  intros [x Hx] [y Hy]. unfold entryLe, compareEntry. rewrite Hx, Hy. cbn [compareNumber].
  rewrite (Z.compare_antisym x y), (String.compare_antisym (e_name b) (e_name a)).
  destruct (x ?= y); cbn [CompOpp]; try discriminate; try reflexivity.
  destruct (String.compare (e_name a) (e_name b)); cbn [CompOpp]; try discriminate; reflexivity.
Qed.

Lemma insertEntry_perm (x : ZoneEntry) (l : list ZoneEntry) :
  Permutation (insertEntry x l) (x :: l).
Proof.
  induction l as [|y r IH]; [apply Permutation_refl|].
  cbn [insertEntry]. destruct (entryLe y x); [|apply Permutation_refl].
  eapply Permutation_trans; [apply perm_skip, IH | apply perm_swap].
Qed.

Lemma fold_insert_perm (l acc : list ZoneEntry) :
  Permutation (fold_left (fun acc x => insertEntry x acc) l acc) (l ++ acc).
Proof.
  revert acc. induction l as [|x l IH]; intros acc; [apply Permutation_refl|].
  cbn [fold_left app]. eapply Permutation_trans; [apply IH|].
  eapply Permutation_trans; [apply Permutation_app_head, insertEntry_perm|].
  apply Permutation_sym, Permutation_middle.
Qed.

Lemma sortBy_perm (l : list ZoneEntry) : Permutation (sortBy l) l.
Proof. unfold sortBy. rewrite <- (app_nil_r l) at 2. apply fold_insert_perm. Qed.

Lemma insertEntry_hd (x y : ZoneEntry) (l : list ZoneEntry) :
  entryOrder y x -> HdRel entryOrder y l -> HdRel entryOrder y (insertEntry x l).
Proof.
  intros Hyx Hl. destruct l as [|z r]; cbn [insertEntry]; [now constructor|].
  destruct (entryLe z x); constructor; [now inversion Hl | exact Hyx].
Qed.

Lemma insertEntry_sorted (x : ZoneEntry) (l : list ZoneEntry) :
  hasOffset x -> Forall hasOffset l ->
  Sorted entryOrder l -> Sorted entryOrder (insertEntry x l).
Proof.
  intros Hx Hl Hs. induction Hs as [|y r Hr IH Hhd]; cbn [insertEntry].
  - repeat constructor.
  - inversion Hl as [|? ? Hy Hrest]; subst.
    destruct (entryLe y x) eqn:E.
    + constructor; [now apply IH | now apply insertEntry_hd].
    + constructor; [now constructor|]. constructor. now apply entryLe_total.
Qed.

Lemma fold_insert_sorted (l acc : list ZoneEntry) :
  Forall hasOffset l -> Forall hasOffset acc -> Sorted entryOrder acc ->
  Sorted entryOrder (fold_left (fun acc x => insertEntry x acc) l acc).
Proof.
  revert acc. induction l as [|x l IH]; intros acc Hl Hacc Hs; [exact Hs|].
  inversion Hl as [|? ? Hx Hrest]; subst. cbn [fold_left]. apply IH; [exact Hrest | |].
  - eapply Permutation_Forall; [apply Permutation_sym, insertEntry_perm|]. now constructor.
  - now apply insertEntry_sorted.
Qed.

Lemma sortBy_sorted (l : list ZoneEntry) :
  Forall hasOffset l -> Sorted entryOrder (sortBy l).
Proof. intros H. apply fold_insert_sorted; [exact H | constructor | constructor]. Qed.

Lemma Sorted_map_In {A B : Type} (R : A -> A -> Prop) (R' : B -> B -> Prop)
      (f : A -> B) (l : list A) :
  (forall a b, In a l -> In b l -> R a b -> R' (f a) (f b)) ->
  Sorted R l -> Sorted R' (map f l).
Proof.
  intros HR Hs. induction Hs as [|a r Hr IH Hhd]; cbn [map]; [constructor|].
  constructor.
  - apply IH. intros x y Hx Hy. apply HR; now right.
  - destruct Hhd as [|b r' Hab]; cbn [map]; constructor.
    apply HR; [now left | right; now left | exact Hab].
Qed.

(** ** The list of common zones *)

Section CatalogFacts.

Variable LocalTZA : Z -> bool -> Z.
Variable getZone : string -> option Zone.
Variable TIMEZONES : list (string * string).
Variable loadTime : Z.

Lemma zoneEntries_known (zones : list string) (nowM : Moment) :
  m_d nowM = Some (loadTime + m_offset nowM * 60000) ->
  Forall (knownZone getZone loadTime) zones ->
  zoneEntries LocalTZA getZone nowM zones = Returned (map (entryOf getZone loadTime) zones).
Proof.
  intros Hinv Hz. revert nowM Hinv.
  induction Hz as [|k zones (Hne & z & Hk & Hr) _ IH]; intros nowM Hinv; [reflexivity|].
  cbn [zoneEntries map]. rewrite Hne.
  set (input := - Zone_utcOffset z loadTime).
  assert (Etz : moment_tz getZone nowM k = mkMoment (Some (loadTime + input * 60000)) input true).
  { unfold moment_tz, moment_valueOf, moment_setOffset. rewrite Hk, Hinv. cbn [bindN].
    replace (loadTime + m_offset nowM * 60000 - m_offset nowM * 60000) with loadTime by lia.
    fold input. f_equal.
    destruct (m_offset nowM =? input) eqn:E.
    - apply Z.eqb_eq in E. now rewrite E.
    - replace (loadTime + m_offset nowM * 60000 + (input - m_offset nowM) * 60000)
        with (loadTime + input * 60000) by lia.
      apply TimeClip_in_range.
      replace (loadTime + input * 60000) with (loadTime - Zone_utcOffset z loadTime * 60000)
        by (subst input; lia).
      exact Hr. }
  rewrite Etz.
  rewrite (IH (mkMoment (Some (loadTime + input * 60000)) input true) eq_refl).
  cbn [andThen]. do 2 f_equal.
  unfold entryOf, currentOffset, moment_format_offset, moment_utcOffset.
  rewrite Hk. cbn [m_d m_isUTC m_offset bindN]. fold input.
  now rewrite parseInt_offsetText.
Qed.

Lemma entryOrder_zoneOrder (a b : string) :
  entryOrder (entryOf getZone loadTime a) (entryOf getZone loadTime b) ->
  zoneOrder getZone loadTime a b.
Proof.
  unfold entryOrder, entryLe, compareEntry, entryOf, zoneOrder. cbn [e_offset e_name compareNumber].
  rewrite zzKey_compare.
  destruct (Z.compare_spec (currentOffset getZone loadTime a) (currentOffset getZone loadTime b)) as [E | L | G].
  - intros H. right. split; [exact E|]. unfold String.leb.
    destruct (String.compare a b); [reflexivity | reflexivity | discriminate].
  - intros _. now left.
  - discriminate.
Qed.

Lemma zoneOrder_trans (a b c : string) :
  zoneOrder getZone loadTime a b -> zoneOrder getZone loadTime b c ->
  zoneOrder getZone loadTime a c.
Proof.
  unfold zoneOrder. intros [H1 | [E1 L1]] [H2 | [E2 L2]]; try (left; lia).
  right. split; [lia|]. exact (string_leb_trans _ _ _ L1 L2).
Qed.

(** C5: when every identifier of the zone name table is a zone of the
    database, [getCommonZones()] returns a list with exactly the identifiers
    of the table, ordered non-decreasing by the offset each zone had when the
    module was loaded, equal offsets ordered by identifier; it is the list
    computed at load time, whenever it is called. *)
Theorem getCommonZones_sorted :
  Z.abs loadTime <= ES.maxTime ->
  Forall (knownZone getZone loadTime) (map fst TIMEZONES) ->
  exists l,
    COMMON_ZONES LocalTZA getZone TIMEZONES loadTime = Returned l /\
    Permutation l (map fst TIMEZONES) /\
    StronglySorted (zoneOrder getZone loadTime) l /\
    forall callTime, getCommonZones LocalTZA getZone TIMEZONES loadTime callTime = Returned l.
Proof.
  intros Hnow Hkeys.
  set (keys := map fst TIMEZONES) in *.
  exists (map e_name (sortBy (map (entryOf getZone loadTime) keys))).
  assert (E : COMMON_ZONES LocalTZA getZone TIMEZONES loadTime
              = Returned (map e_name (sortBy (map (entryOf getZone loadTime) keys)))).
  { unfold COMMON_ZONES, sortZones. fold keys.
    rewrite zoneEntries_known; [reflexivity | | exact Hkeys].
    unfold moment, newDateOfValue. cbn [bindN m_d m_offset].
    rewrite TimeClip_in_range by exact Hnow. f_equal. lia. }
  split; [exact E|]. split; [|split; [|intros callTime; exact E]].
  - eapply Permutation_trans; [apply Permutation_map, sortBy_perm|].
    rewrite map_map. cbn [entryOf e_name]. rewrite map_id. apply Permutation_refl.
  - assert (Hin : forall e, In e (sortBy (map (entryOf getZone loadTime) keys)) -> exists k, e = entryOf getZone loadTime k).
    { intros e He. apply (Permutation_in _ (sortBy_perm _)) in He.
      apply in_map_iff in He as (k & <- & _). now exists k. }
    apply Sorted_StronglySorted; [exact zoneOrder_trans|].
    apply Sorted_map_In with (R := entryOrder).
    + intros x y Hx Hy Hxy. destruct (Hin x Hx) as [a ->]. destruct (Hin y Hy) as [b ->].
      cbn [entryOf e_name]. now apply entryOrder_zoneOrder.
    + apply sortBy_sorted. apply Forall_forall. intros e He.
      apply in_map_iff in He as (k & <- & _). now exists (zzKey (currentOffset getZone loadTime k)).
Qed.

End CatalogFacts.

Example getCommonZones_sample :
  getCommonZones utcTZA sampleZones sampleTable 1516710896789 1541343600000
    = Returned ["America/New_York"; "UTC"; "Asia/Kolkata"; "Australia/Sydney"]%string.
Proof. reflexivity. Qed.

Lemma getCommonZones_sorted_witness :
  exists l,
    COMMON_ZONES utcTZA sampleZones sampleTable 1516710896789 = Returned l /\
    Permutation l (map fst sampleTable) /\
    StronglySorted (zoneOrder sampleZones 1516710896789) l /\
    forall callTime, getCommonZones utcTZA sampleZones sampleTable 1516710896789 callTime
                     = Returned l.
Proof.
  apply (getCommonZones_sorted utcTZA sampleZones sampleTable 1516710896789).
  - vm_compute; discriminate.
  - repeat constructor;
      (eexists; split; [reflexivity | vm_compute; discriminate]).
Defined.

(** ** The label of a zone *)

Lemma replaceAll_no_underscore (s : string) :
  underscores s = O -> Text.replaceAllUnderscores s = s.
Proof.
  induction s as [|c r IH]; [reflexivity|]. cbn [underscores Text.replaceAllUnderscores].
  destruct (Ascii.eqb c "_"); [discriminate|]. cbn. intros H. now rewrite IH.
Qed.

(** With at most one underscore, [beautify] replaces every underscore. *)
Lemma beautify_at_most_one (s : string) :
  (underscores s <= 1)%nat -> beautify s = Text.replaceAllUnderscores s.
Proof.
  unfold beautify. induction s as [|c r IH]; [reflexivity|].
  cbn [underscores Text.replaceFirstUnderscore Text.replaceAllUnderscores].
  destruct (Ascii.eqb c "_").
  - intros H. rewrite replaceAll_no_underscore by (cbn in H; apply Nat.succ_le_mono in H;
      now apply Nat.le_0_r in H). reflexivity.
  - cbn. intros H. now rewrite IH.
Qed.

(** The label of a known zone: its current offset as [+HH:MM] or [-HH:MM],
    then the friendly name of the table or the beautified identifier. *)
Lemma humanizeZone_known (LocalTZA : Z -> bool -> Z) (getZone : string -> option Zone)
      (TIMEZONES : list (string * string)) (now : Z) (name : string) (z : Zone) :
  getZone name = Some z -> isEmpty name = false ->
  Z.abs now <= ES.maxTime ->
  Z.abs (now - Zone_utcOffset z now * 60000) <= ES.maxTime ->
  humanizeZone LocalTZA getZone TIMEZONES now name
  = ("(GMT" ++ offsetText ":" (- Zone_utcOffset z now) ++ ") "
     ++ orElse (lookup TIMEZONES name) (beautify name))%string.
Proof.
  intros Hz Hne Hnow Hw. unfold humanizeZone, moment_tz_value, newDateOfValue. cbn [bindN].
  rewrite Hne, TimeClip_in_range by exact Hnow.
  destruct (moment_tz_known getZone now name z Hz Hw) as [_ ->].
  reflexivity.
Qed.

(** C6 at an identifier with two underscores that the table does not have:
    the label of Africa/Dar_es_Salaam keeps the second underscore, because
    [beautify] replaces the first one only; it is not the label with every
    underscore replaced by a space. *)
Theorem humanizeZone_first_underscore_only :
  lookup sampleTable "Africa/Dar_es_Salaam" = None /\
  humanizeZone utcTZA sampleZones sampleTable 1516710896789 "Africa/Dar_es_Salaam"
    = "(GMT+03:00) Africa/Dar es_Salaam"%string /\
  humanizeZone utcTZA sampleZones sampleTable 1516710896789 "Africa/Dar_es_Salaam"
    <> ("(GMT+03:00) " ++ Text.replaceAllUnderscores "Africa/Dar_es_Salaam")%string.
Proof. split; [reflexivity | split; [reflexivity | vm_compute; discriminate]]. Qed.

Example humanizeZone_in_table :
  humanizeZone utcTZA sampleZones sampleTable 1516710896789 "Asia/Kolkata"
    = "(GMT+05:30) Chennai, Kolkata, Mumbai, New Delhi"%string.
Proof. reflexivity. Qed.

(** ** Humanized durations *)

Example tests_agree_at_samples :
  forallb (fun d => Bool.eqb (testsOnDouble d) (testsOnDiff d))
    [0; 1; 59999; 3599999; 3600000; 3600001; 5400000; 7199999; 7200000; 7200001;
     -1; -5400000; -7200000; 86400000; 86400001; 9007199254740992; 9007199254740991;
     9007199254000000; 9007199251200000; 9007199251200001; -9007199254740992]
  = true.
Proof. vm_compute. reflexivity. Qed.

Example hoursText_samples :
  hoursText 5400000 = "1.5"%string /\ hoursText 4140000 = "1.1"%string /\
  hoursText 4500000 = "1.3"%string /\ hoursText 3780000 = "1.1"%string /\
  hoursText 360000000 = "100.0"%string.
Proof. vm_compute. repeat split; reflexivity. Qed.




(** * Further properties of src/date.js *)

Section DateFacts.

Variable LocalTZA : Z -> bool -> Z.

Lemma strictEq_true (a b : Number) :
  strictEq a b = true <-> exists x, a = Some x /\ b = Some x.
Proof.
  destruct a as [x|], b as [y|]; cbn; split; try discriminate.
  - intros H. apply Z.eqb_eq in H. subst. now exists y.
  - intros (z & [= ->] & [= ->]). apply Z.eqb_refl.
  - intros (z & _ & H). discriminate.
  - intros (z & H & _). discriminate.
  - intros (z & H & _). discriminate.
Qed.

Lemma isSameDay_fields (a b : Z) :
  isSameDay LocalTZA (Some a) (Some b) = true <->
  ES.YearFromTime (LocalTime LocalTZA a) = ES.YearFromTime (LocalTime LocalTZA b) /\
  ES.MonthFromTime (LocalTime LocalTZA a) = ES.MonthFromTime (LocalTime LocalTZA b) /\
  ES.DateFromTime (LocalTime LocalTZA a) = ES.DateFromTime (LocalTime LocalTZA b).
Proof.
  unfold isSameDay, getFullYear, getMonth, getDate, strictEq. cbn [option_map].
  rewrite !andb_true_iff, !Z.eqb_eq. tauto.
Qed.

(** Two valid dates are on the same day exactly when their readings in the
    default zone have the same day number: year, month and day of the month
    together determine the day, and nothing else. *)
Lemma isSameDay_Day (a b : Z) :
  isSameDay LocalTZA (Some a) (Some b) = true <->
  ES.Day (LocalTime LocalTZA a) = ES.Day (LocalTime LocalTZA b).
Proof.
  rewrite isSameDay_fields. split.
  - intros (Hy & Hm & Hd).
    rewrite <- (ESFacts.MakeDay_fields (LocalTime LocalTZA a)),
            <- (ESFacts.MakeDay_fields (LocalTime LocalTZA b)).
    now rewrite Hy, Hm, Hd.
  - intros H. exact (ESFacts.date_fields_of_Day _ _ H).
Qed.

(** Two valid dates are on the same day exactly when their readings in the
    default zone have the same day number; so [isSameDay] is an equivalence
    on valid dates.  An Invalid Date is on the same day as no date, itself
    included. *)
Theorem isSameDay_equivalence :
  (forall a b, isSameDay LocalTZA (Some a) (Some b) = true <->
               ES.Day (LocalTime LocalTZA a) = ES.Day (LocalTime LocalTZA b)) /\
  (forall t, isSameDay LocalTZA (Some t) (Some t) = true) /\
  (forall a b, isSameDay LocalTZA a b = isSameDay LocalTZA b a) /\
  (forall a b c, isSameDay LocalTZA a b = true -> isSameDay LocalTZA b c = true ->
                 isSameDay LocalTZA a c = true) /\
  (forall d, isSameDay LocalTZA None d = false /\ isSameDay LocalTZA d None = false).
Proof.
  split; [exact isSameDay_Day|]. split; [|split; [|split]].
  - intros t. now apply isSameDay_Day.
  - intros [a|] [b|]; try reflexivity.
    unfold isSameDay, getFullYear, getMonth, getDate, strictEq. cbn [option_map].
    now rewrite (Z.eqb_sym (ES.YearFromTime _)), (Z.eqb_sym (ES.MonthFromTime _)),
      (Z.eqb_sym (ES.DateFromTime _)).
  - intros [a|] [b|] [c|]; try discriminate; try (intros _; discriminate).
    rewrite !isSameDay_Day. congruence.
  - intros [d|]; split; reflexivity.
Qed.

(** Dates on the same day have the same [toDate], whatever the default zone
    does at midnight and whatever the year. *)
Theorem isSameDay_toDate (a b : Date) :
  isSameDay LocalTZA a b = true -> toDate LocalTZA a = toDate LocalTZA b.
Proof.
  unfold isSameDay. rewrite !andb_true_iff, !strictEq_true.
  intros [[(y & Ya & Yb) (m & Ma & Mb)] (d & Da & Db)].
  unfold toDate. now rewrite Ya, Yb, Ma, Mb, Da, Db.
Qed.

(** [hasTime] of a valid date is 0, which is falsy, exactly at a local
    midnight; otherwise it is the first non-zero clock field.  For an Invalid
    Date it is NaN. *)
Theorem hasTime_zero_iff_midnight (t : Z) :
  (hasTime LocalTZA (Some t) = Some 0 <-> ES.TimeWithinDay (LocalTime LocalTZA t) = 0) /\
  (exists v, hasTime LocalTZA (Some t) = Some v) /\
  hasTime LocalTZA None = None.
Proof.
  set (w := LocalTime LocalTZA t).
  assert (Hf : ES.MakeTime (ES.HourFromTime w) (ES.MinFromTime w) (ES.SecFromTime w)
                 (ES.msFromTime w) = ES.TimeWithinDay w) by apply ESFacts.MakeTime_fields.
  assert (Hr : 0 <= ES.HourFromTime w /\ 0 <= ES.MinFromTime w /\ 0 <= ES.SecFromTime w
               /\ 0 <= ES.msFromTime w).
  { unfold ES.HourFromTime, ES.MinFromTime, ES.SecFromTime, ES.msFromTime,
      ES.msPerHour, ES.msPerMinute, ES.msPerSecond. lia. }
  unfold hasTime, getHours, getMinutes, getSeconds, getMilliseconds, orN.
  cbn [option_map]. fold w.
  unfold ES.MakeTime, ES.msPerHour, ES.msPerMinute, ES.msPerSecond in Hf.
  destruct (ES.HourFromTime w =? 0) eqn:Eh; [apply Z.eqb_eq in Eh | apply Z.eqb_neq in Eh];
    [destruct (ES.MinFromTime w =? 0) eqn:Em; [apply Z.eqb_eq in Em | apply Z.eqb_neq in Em];
     [destruct (ES.SecFromTime w =? 0) eqn:Es; [apply Z.eqb_eq in Es | apply Z.eqb_neq in Es]|]|];
    (split; [split; [intros [= E] | intros E; f_equal]; lia | split; [eexists; reflexivity | reflexivity]]).
Qed.

(** A truncated date has no time: when the local midnight of [t]'s day
    exists in the default zone (and the year is outside 0..99, the midnight
    inside the range of [Date]), [hasTime(toDate(t))] is 0. *)
Theorem hasTime_toDate (t : Z) :
  let r := UTC LocalTZA (ES.startOfDay (LocalTime LocalTZA t)) in
  ~ (0 <= ES.YearFromTime (LocalTime LocalTZA t) <= 99) ->
  Z.abs r <= ES.maxTime ->
  LocalTime LocalTZA r = ES.startOfDay (LocalTime LocalTZA t) ->
  hasTime LocalTZA (toDate LocalTZA (Some t)) = Some 0.
Proof.
  intros r Hy Hr Hm.
  rewrite toDate_unfold by exact Hy. fold r. rewrite TimeClip_in_range by exact Hr.
  unfold hasTime, getHours, getMinutes, getSeconds, getMilliseconds. cbn [option_map].
  rewrite Hm.
  destruct (ESFacts.clock_startOfDay (LocalTime LocalTZA t)) as (Hh & Hmi & Hs & Hms).
  rewrite Hh, Hmi, Hs, Hms. reflexivity.
Qed.

(** Shifting by whole days keeps the wall clock when the default zone has
    the same offset at both instants: the hour, minute, second and
    millisecond read the same and the local day number moves by [n]. *)
Theorem shiftDate_keeps_wall_clock (t n : Z) :
  let d := shiftDate (Some t) n in
  Z.abs (t + n * 86400000) <= ES.maxTime ->
  LocalTZA (t + n * 86400000) true = LocalTZA t true ->
  d = Some (t + n * 86400000) /\
  getHours LocalTZA d = getHours LocalTZA (Some t) /\
  getMinutes LocalTZA d = getMinutes LocalTZA (Some t) /\
  getSeconds LocalTZA d = getSeconds LocalTZA (Some t) /\
  getMilliseconds LocalTZA d = getMilliseconds LocalTZA (Some t) /\
  ES.Day (LocalTime LocalTZA (t + n * 86400000)) = ES.Day (LocalTime LocalTZA t) + n.
Proof.
  intros d Hr Ho.
  assert (E : d = Some (t + n * 86400000)).
  { unfold d, shiftDate. rewrite shift_in_range; [f_equal; lia|].
    replace (t + n * 24 * 60 * 60 * 1000) with (t + n * 86400000) by lia. exact Hr. }
  split; [exact E|]. rewrite E.
  unfold getHours, getMinutes, getSeconds, getMilliseconds. cbn [option_map].
  assert (Ew : LocalTime LocalTZA (t + n * 86400000) = LocalTime LocalTZA t + n * 86400000)
    by (unfold LocalTime; rewrite Ho; lia).
  rewrite Ew. generalize (LocalTime LocalTZA t). intros w. clear.
  unfold ES.HourFromTime, ES.MinFromTime, ES.SecFromTime, ES.msFromTime, ES.Day,
    ES.msPerHour, ES.msPerMinute, ES.msPerSecond, ES.msPerDay.
  assert (Hq : forall c k, 0 < c -> (w + (n * k) * c) / c = w / c + n * k).
  { intros c k Hc. rewrite Z.div_add by lia. reflexivity. }
  replace (w + n * 86400000) with (w + (n * 24) * 3600000) at 1 by lia.
  replace (w + n * 86400000) with (w + (n * 1440) * 60000) at 1 by lia.
  replace (w + n * 86400000) with (w + (n * 86400) * 1000) at 1 by lia.
  replace (w + n * 86400000) with (w + (n * 86400) * 1000) at 1 by lia.
  replace (w + n * 86400000) with (w + (n * 1) * 86400000) at 1 by lia.
  rewrite !Hq by lia.
  replace (w / 3600000 + n * 24) with (w / 3600000 + n * 24) by lia.
  rewrite (Z.add_mod (w / 3600000) (n * 24) 24), Z.mod_mul, Z.add_0_r, Z.mod_mod by lia.
  replace (n * 1440) with ((n * 24) * 60) by lia.
  rewrite (Z.add_mod (w / 60000) (n * 24 * 60) 60), Z.mod_mul, Z.add_0_r, Z.mod_mod by lia.
  replace (n * 86400) with ((n * 1440) * 60) by lia.
  rewrite (Z.add_mod (w / 1000) (n * 1440 * 60) 60), Z.mod_mul, Z.add_0_r, Z.mod_mod by lia.
  rewrite (Z.add_mod w (n * 1440 * 60 * 1000) 1000), Z.mod_mul, Z.add_0_r, Z.mod_mod by lia.
  repeat split; lia.
Qed.

(** With the same offset at both instants, a date shifted by [n] days is on
    the same day as the original only for [n = 0]. *)
Theorem isSameDay_shiftDate (t n : Z) :
  Z.abs (t + n * 86400000) <= ES.maxTime ->
  LocalTZA (t + n * 86400000) true = LocalTZA t true ->
  (isSameDay LocalTZA (shiftDate (Some t) n) (Some t) = true <-> n = 0).
Proof.
  intros Hr Ho.
  assert (E : shiftDate (Some t) n = Some (t + n * 86400000)).
  { unfold shiftDate. rewrite shift_in_range; [f_equal; lia|].
    replace (t + n * 24 * 60 * 60 * 1000) with (t + n * 86400000) by lia. exact Hr. }
  rewrite E, isSameDay_Day. unfold LocalTime. rewrite Ho.
  generalize (LocalTZA t true). intros o. clear.
  replace (t + n * 86400000 + o) with (t + o + n * 86400000) by lia.
  unfold ES.Day, ES.msPerDay. rewrite Z.div_add by lia. lia.
Qed.

End DateFacts.

Lemma isSameDay_equivalence_witness :
  isSameDay utcTZA (Some 1516665600000) (Some 1516751999000) = true.
Proof.
  apply (proj1 (proj2 (proj2 (proj2 (isSameDay_equivalence utcTZA))))
           (Some 1516665600000) (Some 1516710896789) (Some 1516751999000));
    reflexivity.
Defined.

Lemma isSameDay_toDate_witness :
  toDate saoPauloTZA (Some 1541343600000) = toDate saoPauloTZA (Some 1541300400000).
Proof.
  apply (isSameDay_toDate saoPauloTZA (Some 1541343600000) (Some 1541300400000)).
  reflexivity.
Defined.

Lemma hasTime_toDate_witness :
  hasTime utcTZA (toDate utcTZA (Some 1516710896789)) = Some 0.
Proof.
  apply (hasTime_toDate utcTZA 1516710896789).
  - vm_compute. intros [_ H]. apply H. reflexivity.
  - vm_compute. discriminate.
  - reflexivity.
Defined.

Lemma shiftDate_keeps_wall_clock_witness :
  shiftDate (Some 1516710896789) (-1) = Some (1516710896789 + -1 * 86400000) /\
  getHours (fixedTZA (-28800000)) (shiftDate (Some 1516710896789) (-1))
    = getHours (fixedTZA (-28800000)) (Some 1516710896789) /\
  getMinutes (fixedTZA (-28800000)) (shiftDate (Some 1516710896789) (-1))
    = getMinutes (fixedTZA (-28800000)) (Some 1516710896789) /\
  getSeconds (fixedTZA (-28800000)) (shiftDate (Some 1516710896789) (-1))
    = getSeconds (fixedTZA (-28800000)) (Some 1516710896789) /\
  getMilliseconds (fixedTZA (-28800000)) (shiftDate (Some 1516710896789) (-1))
    = getMilliseconds (fixedTZA (-28800000)) (Some 1516710896789) /\
  ES.Day (LocalTime (fixedTZA (-28800000)) (1516710896789 + -1 * 86400000))
    = ES.Day (LocalTime (fixedTZA (-28800000)) 1516710896789) + -1.
Proof.
  apply (shiftDate_keeps_wall_clock (fixedTZA (-28800000)) 1516710896789 (-1)).
  - vm_compute. discriminate.
  - reflexivity.
Defined.

Lemma isSameDay_shiftDate_witness :
  isSameDay saoPauloTZA (shiftDate (Some 1516710896789) 3) (Some 1516710896789) = true <-> 3 = 0.
Proof.
  apply (isSameDay_shiftDate saoPauloTZA 1516710896789 3).
  - vm_compute. discriminate.
  - reflexivity.
Defined.

(** Shifting by hours is exact inside the range of [Date] and is undone by
    the opposite shift; a shift by days and a shift by hours commute when
    both intermediate dates are inside the range. *)
Theorem shiftHour_exact_and_commutes (t h n : Z) :
  Z.abs t <= ES.maxTime ->
  Z.abs (t + h * 3600000) <= ES.maxTime ->
  Z.abs (t + n * 86400000) <= ES.maxTime ->
  shiftHour (Some t) h = Some (t + h * 3600000) /\
  shiftHour (shiftHour (Some t) h) (- h) = Some t /\
  shiftDate (shiftHour (Some t) h) n = shiftHour (shiftDate (Some t) n) h.
Proof.
  intros Ht Hh Hn.
  assert (Eh : shiftHour (Some t) h = Some (t + h * 3600000)).
  { unfold shiftHour. rewrite shift_in_range; [f_equal; lia|].
    replace (t + h * 60 * 60 * 1000) with (t + h * 3600000) by lia. exact Hh. }
  assert (En : shiftDate (Some t) n = Some (t + n * 86400000)).
  { unfold shiftDate. rewrite shift_in_range; [f_equal; lia|].
    replace (t + n * 24 * 60 * 60 * 1000) with (t + n * 86400000) by lia. exact Hn. }
  split; [exact Eh|]. rewrite Eh, En. split.
  - unfold shiftHour. rewrite shift_in_range; [f_equal; lia|].
    replace (t + h * 3600000 + - h * 60 * 60 * 1000) with t by lia. exact Ht.
  - unfold shiftDate, shiftHour, shift, newDateOfValue, valueOf. cbn [bindN]. f_equal. lia.
Qed.

Lemma shiftHour_exact_and_commutes_witness :
  shiftHour (Some 1516710896789) 5 = Some (1516710896789 + 5 * 3600000) /\
  shiftHour (shiftHour (Some 1516710896789) 5) (- 5) = Some 1516710896789 /\
  shiftDate (shiftHour (Some 1516710896789) 5) (-2)
    = shiftHour (shiftDate (Some 1516710896789) (-2)) 5.
Proof.
  apply (shiftHour_exact_and_commutes 1516710896789 5 (-2)); vm_compute; discriminate.
Defined.

(** In a default zone with a constant offset, [toDate(t)] is the last local
    midnight at or before [t]: it is at most [t] and less than a day before
    it (for a year outside 0..99 and a midnight inside the range). *)
Theorem toDate_fixed_offset_bounds (off t : Z) :
  ~ (0 <= ES.YearFromTime (t + off) <= 99) ->
  Z.abs (ES.startOfDay (t + off) - off) <= ES.maxTime ->
  exists r, toDate (fixedTZA off) (Some t) = Some r /\
            r <= t < r + 86400000 /\
            ES.TimeWithinDay (LocalTime (fixedTZA off) r) = 0.
Proof.
  intros Hy Hr. exists (ES.startOfDay (t + off) - off).
  split; [|split].
  - rewrite toDate_unfold by exact Hy. unfold UTC, LocalTime, fixedTZA.
    now apply TimeClip_in_range.
  - unfold ES.startOfDay, ES.MakeDate, ES.Day, ES.msPerDay. lia.
  - unfold LocalTime, fixedTZA, ES.startOfDay, ES.MakeDate, ES.Day, ES.TimeWithinDay,
      ES.msPerDay. lia.
Qed.

Lemma toDate_fixed_offset_bounds_witness :
  exists r, toDate (fixedTZA (-28800000)) (Some 1516710896789) = Some r /\
            r <= 1516710896789 < r + 86400000 /\
            ES.TimeWithinDay (LocalTime (fixedTZA (-28800000)) r) = 0.
Proof.
  apply (toDate_fixed_offset_bounds (-28800000) 1516710896789).
  - vm_compute. intros [_ H]. apply H. reflexivity.
  - vm_compute. discriminate.
Defined.

(** * Further properties of src/timezones/timezones.js *)

Section ConversionFacts.

Variable LocalTZA : Z -> bool -> Z.
Variable getZone : string -> option Zone.

(** The other round trip: a local date [l] made zoned and local again is
    [l], when its reading [w] in the default zone has a year outside 0..99,
    exists in the zone (the offset in force at the zoned instant is the one
    the zone resolved for [w]), is the reading the default zone maps back to
    [l], and the values are inside the range of [Date]. *)
Theorem local_zoned_round_trip (l : Z) (name : string) (z : Zone) :
  let w := LocalTime LocalTZA l in
  let r := w + Zone_parse z w * 60000 in
  getZone name = Some z -> isEmpty name = false ->
  Z.abs l <= ES.maxTime -> Z.abs w <= ES.maxTime -> Z.abs r <= ES.maxTime ->
  ~ (0 <= ES.YearFromTime w <= 99) ->
  Zone_utcOffset z r = Zone_parse z w ->
  UTC LocalTZA w = l ->
  andThen (localToZoned LocalTZA getZone (Some l) name)
          (fun x => zonedToLocal LocalTZA getZone x name)
    = Returned (Some l).
Proof.
  intros w r Hz Hne Hl Hw Hr Hy Hoff Hback.
  assert (Ew : r - Zone_utcOffset z r * 60000 = w) by (rewrite Hoff; subst r; lia).
  rewrite (localToZoned_known LocalTZA getZone l name z Hz Hne); fold w; fold r;
    [ | exact Hw | exact Hr | rewrite Ew; exact Hw ].
  cbn [andThen].
  rewrite (zonedToLocal_known LocalTZA getZone r name z Hz Hne); rewrite Ew;
    [ | exact Hw | exact Hy ].
  rewrite Hback. now rewrite TimeClip_in_range.
Qed.

(** [zonedToLocal] keeps the field values: in a known zone the result is a
    date whose fields in the default zone are the fields of [t] in the zone,
    when that reading has a year outside 0..99 and exists in the default
    zone.  The result is [t] moved by the difference of the two offsets. *)
Theorem zonedToLocal_keeps_fields (t : Z) (name : string) (z : Zone) :
  let w := t - Zone_utcOffset z t * 60000 in
  getZone name = Some z -> isEmpty name = false ->
  Z.abs w <= ES.maxTime -> Z.abs (UTC LocalTZA w) <= ES.maxTime ->
  ~ (0 <= ES.YearFromTime w <= 99) ->
  LocalTime LocalTZA (UTC LocalTZA w) = w ->
  zonedToLocal LocalTZA getZone (Some t) name
    = Returned (Some (t - Zone_utcOffset z t * 60000 - LocalTZA w false)) /\
  dateFields LocalTZA (Some (t - Zone_utcOffset z t * 60000 - LocalTZA w false))
    = moment_fields LocalTZA (moment_tz getZone (moment (Some t)) name).
Proof.
  intros w Hz Hne Hw Hl Hy Hex.
  rewrite (zonedToLocal_known LocalTZA getZone t name z Hz Hne Hw Hy). fold w.
  rewrite TimeClip_in_range by exact Hl.
  split; [reflexivity|].
  unfold dateFields. cbn [option_map].
  change (LocalTime LocalTZA (w - LocalTZA w false))
    with (LocalTime LocalTZA (UTC LocalTZA w)).
  rewrite Hex.
  unfold moment. destruct (moment_tz_known getZone t name z Hz Hw) as [-> _].
  reflexivity.
Qed.

(** [localToZoned] keeps the field values: in a known zone the result is an
    instant whose fields in the zone are the fields of the local date in the
    default zone, when the zone does not skip that reading. *)
Theorem localToZoned_keeps_fields (l : Z) (name : string) (z : Zone) :
  let w := LocalTime LocalTZA l in
  let r := w + Zone_parse z w * 60000 in
  getZone name = Some z -> isEmpty name = false ->
  Z.abs w <= ES.maxTime -> Z.abs r <= ES.maxTime ->
  Zone_utcOffset z r = Zone_parse z w ->
  localToZoned LocalTZA getZone (Some l) name = Returned (Some r) /\
  moment_fields LocalTZA (moment_tz getZone (moment (Some r)) name)
    = dateFields LocalTZA (Some l).
Proof.
  intros w r Hz Hne Hw Hr Hoff.
  assert (Ew : r - Zone_utcOffset z r * 60000 = w) by (rewrite Hoff; subst r; lia).
  assert (Hs : Z.abs (r - Zone_utcOffset z r * 60000) <= ES.maxTime) by (rewrite Ew; exact Hw).
  split.
  - now apply (localToZoned_known LocalTZA getZone l name z Hz Hne).
  - unfold moment. destruct (moment_tz_known getZone r name z Hz Hs) as [-> _].
    unfold moment_fields, dateFields. cbn [m_d m_isUTC option_map]. now rewrite Ew.
Qed.


End ConversionFacts.

Lemma local_zoned_round_trip_witness :
  andThen (localToZoned (fixedTZA (-28800000)) sampleZones (Some 1516710896789) "Australia/Sydney")
          (fun x => zonedToLocal (fixedTZA (-28800000)) sampleZones x "Australia/Sydney")
    = Returned (Some 1516710896789).
Proof.
  apply (local_zoned_round_trip (fixedTZA (-28800000)) sampleZones
           1516710896789 "Australia/Sydney" zoneSydney).
  - reflexivity.
  - reflexivity.
  - vm_compute; discriminate.
  - vm_compute; discriminate.
  - vm_compute; discriminate.
  - vm_compute. intros [_ H]. apply H. reflexivity.
  - reflexivity.
  - reflexivity.
Defined.

Lemma zonedToLocal_keeps_fields_witness :
  zonedToLocal (fixedTZA (-28800000)) sampleZones (Some 1515996000000) "America/New_York"
    = Returned (Some (1515996000000 - Zone_utcOffset zoneNewYork 1515996000000 * 60000
                      - fixedTZA (-28800000)
                          (1515996000000 - Zone_utcOffset zoneNewYork 1515996000000 * 60000)
                          false)) /\
  dateFields (fixedTZA (-28800000))
    (Some (1515996000000 - Zone_utcOffset zoneNewYork 1515996000000 * 60000
           - fixedTZA (-28800000)
               (1515996000000 - Zone_utcOffset zoneNewYork 1515996000000 * 60000) false))
    = moment_fields (fixedTZA (-28800000))
        (moment_tz sampleZones (moment (Some 1515996000000)) "America/New_York").
Proof.
  apply (zonedToLocal_keeps_fields (fixedTZA (-28800000)) sampleZones
           1515996000000 "America/New_York" zoneNewYork).
  - reflexivity.
  - reflexivity.
  - vm_compute; discriminate.
  - vm_compute; discriminate.
  - vm_compute. intros [_ H]. apply H. reflexivity.
  - reflexivity.
Defined.

Lemma localToZoned_keeps_fields_witness :
  localToZoned utcTZA sampleZones (Some 1516710896789) "Australia/Sydney"
    = Returned (Some (LocalTime utcTZA 1516710896789
                      + Zone_parse zoneSydney (LocalTime utcTZA 1516710896789) * 60000)) /\
  moment_fields utcTZA
    (moment_tz sampleZones
       (moment (Some (LocalTime utcTZA 1516710896789
                      + Zone_parse zoneSydney (LocalTime utcTZA 1516710896789) * 60000)))
       "Australia/Sydney")
    = dateFields utcTZA (Some 1516710896789).
Proof.
  apply (localToZoned_keeps_fields utcTZA sampleZones 1516710896789 "Australia/Sydney" zoneSydney).
  - reflexivity.
  - reflexivity.
  - vm_compute; discriminate.
  - vm_compute; discriminate.
  - reflexivity.
Defined.


Section FormattingFacts.

Variable LocalTZA : Z -> bool -> Z.
Variable getZone : string -> option Zone.

(** The moment [formatInZone] formats for a known zone denotes the instant
    it was given, reads the wall clock of the zone and carries the zone's
    offset. *)
Theorem toMoment_known (t : Z) (name : string) (z : Zone) :
  let m := toMoment getZone (Some t) (Some name) in
  getZone name = Some z -> isEmpty name = false ->
  Z.abs (t - Zone_utcOffset z t * 60000) <= ES.maxTime ->
  moment_valueOf m = Some t /\
  moment_fields LocalTZA m = Some (ES.fieldsOf (t - Zone_utcOffset z t * 60000)) /\
  moment_utcOffset LocalTZA m = Some (- Zone_utcOffset z t).
Proof.
  intros m Hz Hne Hw. unfold m, toMoment, moment. rewrite Hne.
  destruct (moment_tz_known getZone t name z Hz Hw) as [-> _].
  unfold moment_valueOf, moment_fields, moment_utcOffset. cbn [m_d m_offset m_isUTC bindN].
  repeat split. f_equal. lia.
Qed.

End FormattingFacts.


Lemma toMoment_known_witness :
  moment_valueOf (toMoment sampleZones (Some 1516710896789) (Some "Asia/Kolkata"%string))
    = Some 1516710896789 /\
  moment_fields utcTZA (toMoment sampleZones (Some 1516710896789) (Some "Asia/Kolkata"%string))
    = Some (ES.fieldsOf (1516710896789 - Zone_utcOffset zoneKolkata 1516710896789 * 60000)) /\
  moment_utcOffset utcTZA (toMoment sampleZones (Some 1516710896789) (Some "Asia/Kolkata"%string))
    = Some (- Zone_utcOffset zoneKolkata 1516710896789).
Proof.
  apply (toMoment_known utcTZA sampleZones 1516710896789 "Asia/Kolkata" zoneKolkata).
  - reflexivity.
  - reflexivity.
  - vm_compute; discriminate.
Defined.


Section ParseUnknownZone.

Variable LocalTZA : Z -> bool -> Z.
Variable getZone : string -> option Zone.
Variable parseString : string -> option Parsed.


End ParseUnknownZone.


(** * Further properties of the zone catalog *)

(** The key [sortZones] sorts by orders zones as their offsets do: the
    number read back from the "ZZ" text (+0530 gives 530) is strictly
    monotone in the offset, on both sides of zero. *)
Theorem sort_key_follows_offset (a b : Z) :
  exists ka kb,
    Text.parseInt (offsetText "" a) = Some ka /\
    Text.parseInt (offsetText "" b) = Some kb /\
    (ka ?= kb) = (a ?= b).
Proof.
  exists (zzKey a), (zzKey b). rewrite !parseInt_offsetText.
  repeat split. apply zzKey_compare.
Qed.

Lemma entryLe_trans (a b c : ZoneEntry) :
  entryLe a b = true -> entryLe b c = true -> entryLe a c = true.
Proof.
  unfold entryLe, compareEntry.
  destruct (e_offset a) as [x|], (e_offset b) as [y|], (e_offset c) as [z|];
    cbn [compareNumber]; try discriminate; try reflexivity.
  destruct (Z.compare_spec x y) as [-> | Hxy | Hxy]; try discriminate.
  - destruct (Z.compare_spec y z) as [-> | Hyz | Hyz]; try discriminate; [|reflexivity].
    destruct (String.compare (e_name a) (e_name b)) eqn:Eab; try discriminate;
      destruct (String.compare (e_name b) (e_name c)) eqn:Ebc; try discriminate; intros _ _.
    + apply String.compare_eq_iff in Eab, Ebc. rewrite Eab, Ebc.
      now rewrite string_compare_refl.
    + apply String.compare_eq_iff in Eab. now rewrite Eab, Ebc.
    + apply String.compare_eq_iff in Ebc. now rewrite <- Ebc, Eab.
    + now rewrite (string_compare_lt_trans _ _ _ Eab Ebc).
  - intros _. destruct (Z.compare_spec y z) as [-> | Hyz | Hyz]; try discriminate.
    + intros _. apply Z.compare_lt_iff in Hxy. now rewrite Hxy.
    + intros _. assert (H : x < z) by lia. apply Z.compare_lt_iff in H. now rewrite H.
Qed.

Lemma entryLe_antisym (a b : ZoneEntry) :
  entryLe a b = true -> entryLe b a = true -> a = b.
Proof.
  unfold entryLe, compareEntry. destruct a as [na [x|]], b as [nb [y|]];
    cbn [e_offset e_name compareNumber]; try discriminate.
  rewrite (Z.compare_antisym x y), (String.compare_antisym nb na).
  destruct (Z.compare_spec x y) as [-> | H | H]; cbn [CompOpp]; try discriminate.
  destruct (String.compare na nb) eqn:E; cbn [CompOpp]; try discriminate.
  apply String.compare_eq_iff in E. now subst.
Qed.

Lemma sorted_permutation_unique {A : Type} (R : A -> A -> Prop) :
  (forall a b, R a b -> R b a -> a = b) ->
  forall l1 l2, StronglySorted R l1 -> StronglySorted R l2 -> Permutation l1 l2 -> l1 = l2.
Proof.
  intros Hanti. induction l1 as [|a l1 IH]; intros l2 S1 S2 P.
  - apply Permutation_nil in P. now subst.
  - destruct l2 as [|b l2]; [apply Permutation_sym, Permutation_nil in P; discriminate|].
    apply StronglySorted_inv in S1 as [S1 F1]. apply StronglySorted_inv in S2 as [S2 F2].
    assert (E : a = b).
    { assert (Ia : In a (b :: l2)) by (apply (Permutation_in _ P); now left).
      assert (Ib : In b (a :: l1)) by (apply (Permutation_in _ (Permutation_sym P)); now left).
      destruct Ia as [-> | Ia]; [reflexivity|].
      destruct Ib as [-> | Ib]; [reflexivity|].
      rewrite Forall_forall in F1, F2. apply Hanti; auto. }
    subst b. f_equal. apply IH; auto. now apply Permutation_cons_inv in P.
Qed.

Lemma sortBy_strongly_sorted (l : list ZoneEntry) :
  Forall hasOffset l -> StronglySorted entryOrder (sortBy l).
Proof.
  intros H. apply Sorted_StronglySorted; [|now apply sortBy_sorted].
  intros a b c. apply entryLe_trans.
Qed.

(** lodash's [sortBy] gives one result for all orders of the same records. *)
Lemma sortBy_permutation (l1 l2 : list ZoneEntry) :
  Forall hasOffset l1 -> Permutation l1 l2 -> sortBy l1 = sortBy l2.
Proof.
  intros H P.
  assert (H2 : Forall hasOffset l2) by (eapply Permutation_Forall; eauto).
  apply (sorted_permutation_unique entryOrder).
  - intros a b. apply entryLe_antisym.
  - now apply sortBy_strongly_sorted.
  - now apply sortBy_strongly_sorted.
  - eapply Permutation_trans; [apply sortBy_perm|].
    eapply Permutation_trans; [exact P | apply Permutation_sym, sortBy_perm].
Qed.

Section SortZonesFacts.

Variable LocalTZA : Z -> bool -> Z.
Variable getZone : string -> option Zone.

Lemma zoneEntries_names (zones : list string) (nowM : Moment) :
  Forall (fun k => isEmpty k = false) zones ->
  exists l, zoneEntries LocalTZA getZone nowM zones = Returned l /\ map e_name l = zones.
Proof.
  intros H. revert nowM. induction H as [|k zones Hk _ IH]; intros nowM.
  - now exists [].
  - cbn [zoneEntries]. rewrite Hk.
    destruct (IH (moment_tz getZone nowM k)) as (l & -> & El).
    eexists. split; [reflexivity|]. cbn [map e_name]. now rewrite El.
Qed.

Lemma zoneEntries_throws (zones : list string) (nowM : Moment) :
  Exists (fun k => isEmpty k = true) zones ->
  zoneEntries LocalTZA getZone nowM zones = ThrownTypeError.
Proof.
  intros H. revert nowM. induction H as [k zones Hk | k zones _ IH]; intros nowM.
  - cbn [zoneEntries]. now rewrite Hk.
  - cbn [zoneEntries]. destruct (isEmpty k); [reflexivity|]. now rewrite IH.
Qed.


(** The one moment [nowM] is shared by all rounds of the [map]: an
    identifier without zone data leaves it where the identifier before it
    put it, and so gets the sort key of that identifier. *)
Theorem sortZones_unknown_inherits_offset (nowM : Moment) (pre post : list string)
        (k u : string) (l : list ZoneEntry) :
  getZone u = None ->
  zoneEntries LocalTZA getZone nowM (pre ++ k :: u :: post) = Returned l ->
  exists ek eu,
    nth_error l (List.length pre) = Some ek /\ nth_error l (S (List.length pre)) = Some eu /\
    e_name ek = k /\ e_name eu = u /\ e_offset eu = e_offset ek.
Proof.
  intros Hu. revert nowM l. induction pre as [|p pre IH]; intros nowM l H.
  - cbn [app zoneEntries] in H.
    destruct (isEmpty k); [discriminate|]. destruct (isEmpty u); [discriminate|].
    assert (Em : moment_tz getZone (moment_tz getZone nowM k) u = moment_tz getZone nowM k)
      by (unfold moment_tz at 1; now rewrite Hu).
    rewrite Em in H.
    destruct (zoneEntries LocalTZA getZone (moment_tz getZone nowM k) post) as [r|];
      [|discriminate].
    cbn [andThen] in H. injection H as <-.
    do 2 eexists. cbn [List.length nth_error]. repeat split.
  - cbn [app zoneEntries] in H. destruct (isEmpty p); [discriminate|].
    destruct (zoneEntries LocalTZA getZone (moment_tz getZone nowM p) (pre ++ k :: u :: post))
      as [r|] eqn:E; [|discriminate].
    cbn [andThen] in H. injection H as <-.
    destruct (IH _ _ E) as (ek & eu & H1 & H2 & H3).
    exists ek, eu. cbn [List.length nth_error]. auto.
Qed.

(** The order of the entries in the zone name table does not matter: two
    lists with the same known identifiers are sorted to the same list, and
    sorting the result again changes nothing. *)
Theorem sortZones_order_independent (now : Z) (keys1 keys2 : list string) :
  Z.abs now <= ES.maxTime ->
  Forall (knownZone getZone now) keys1 ->
  Permutation keys1 keys2 ->
  sortZones LocalTZA getZone now keys1 = sortZones LocalTZA getZone now keys2 /\
  exists l, sortZones LocalTZA getZone now keys1 = Returned l /\
            sortZones LocalTZA getZone now l = Returned l.
Proof.
  intros Hnow H1 P.
  assert (Hinv : m_d (moment (newDateOfValue (Some now)))
                 = Some (now + m_offset (moment (newDateOfValue (Some now))) * 60000)).
  { unfold moment, newDateOfValue. cbn [bindN m_d m_offset].
    rewrite TimeClip_in_range by exact Hnow. f_equal. lia. }
  assert (Hoff : forall ks, Forall hasOffset (map (entryOf getZone now) ks)).
  { intros ks. apply Forall_forall. intros e He.
    apply in_map_iff in He as (x & <- & _). now eexists. }
  assert (S : forall ks, Forall (knownZone getZone now) ks ->
              sortZones LocalTZA getZone now ks
              = Returned (map e_name (sortBy (map (entryOf getZone now) ks)))).
  { intros ks Hk. unfold sortZones.
    now rewrite (zoneEntries_known LocalTZA getZone now ks _ Hinv Hk). }
  assert (I : forall ka kb, Permutation ka kb ->
              sortBy (map (entryOf getZone now) ka) = sortBy (map (entryOf getZone now) kb)).
  { intros ka kb Pk. apply sortBy_permutation; [apply Hoff | now apply Permutation_map]. }
  assert (H2 : Forall (knownZone getZone now) keys2) by (eapply Permutation_Forall; eauto).
  split.
  - now rewrite (S keys1 H1), (S keys2 H2), (I keys1 keys2 P).
  - eexists. split; [apply (S keys1 H1)|].
    set (l := map e_name (sortBy (map (entryOf getZone now) keys1))).
    assert (Pl : Permutation l keys1).
    { unfold l. eapply Permutation_trans; [apply Permutation_map, sortBy_perm|].
      rewrite map_map. cbn [entryOf e_name]. rewrite map_id. apply Permutation_refl. }
    assert (Hl : Forall (knownZone getZone now) l)
      by (eapply Permutation_Forall; [apply Permutation_sym, Pl | exact H1]).
    rewrite (S l Hl), (I l keys1 Pl). reflexivity.
Qed.

End SortZonesFacts.


Lemma sortZones_unknown_inherits_offset_witness :
  exists ek eu,
    nth_error [mkEntry "UTC" (Some 0); mkEntry "Asia/Kolkata" (Some 530);
               mkEntry "Mars/Phobos" (Some 530); mkEntry "Australia/Sydney" (Some 1100)] 1
      = Some ek /\
    nth_error [mkEntry "UTC" (Some 0); mkEntry "Asia/Kolkata" (Some 530);
               mkEntry "Mars/Phobos" (Some 530); mkEntry "Australia/Sydney" (Some 1100)] 2
      = Some eu /\
    e_name ek = "Asia/Kolkata"%string /\ e_name eu = "Mars/Phobos"%string /\
    e_offset eu = e_offset ek.
Proof.
  apply (sortZones_unknown_inherits_offset utcTZA sampleZones (moment (Some 1516710896789))
           ["UTC"%string] ["Australia/Sydney"%string] "Asia/Kolkata" "Mars/Phobos").
  - reflexivity.
  - reflexivity.
Defined.

Lemma sortZones_order_independent_witness :
  sortZones utcTZA sampleZones 1516710896789 (map fst sampleTable)
    = sortZones utcTZA sampleZones 1516710896789 (rev (map fst sampleTable)) /\
  exists l, sortZones utcTZA sampleZones 1516710896789 (map fst sampleTable) = Returned l /\
            sortZones utcTZA sampleZones 1516710896789 l = Returned l.
Proof.
  apply (sortZones_order_independent utcTZA sampleZones 1516710896789
           (map fst sampleTable) (rev (map fst sampleTable))).
  - vm_compute; discriminate.
  - repeat constructor;
      (eexists; split; [reflexivity | vm_compute; discriminate]).
  - apply Permutation_rev.
Defined.

(** * Further properties of the zone labels *)

(** [beautify] changes one character at most: the text keeps its length,
    loses exactly one underscore when it has any, and is unchanged exactly
    when it has none. *)
Theorem beautify_one_underscore (s : string) :
  String.length (beautify s) = String.length s /\
  underscores (beautify s) = Nat.pred (underscores s) /\
  (beautify s = s <-> underscores s = O).
Proof.
  unfold beautify. induction s as [|c r (IHl & IHu & IHe)]; [repeat split; reflexivity|].
  cbn [Text.replaceFirstUnderscore underscores String.length].
  destruct (Ascii.eqb c "_") eqn:E.
  - apply Ascii.eqb_eq in E. subst c. repeat split; try reflexivity; discriminate.
  - cbn [underscores String.length]. rewrite E, IHl, IHu. repeat split.
    + intros [= H]. cbn. now apply IHe.
    + cbn. intros H. f_equal. now apply IHe.
Qed.

Section LabelFacts.

Variable LocalTZA : Z -> bool -> Z.
Variable getZone : string -> option Zone.
Variable TIMEZONES : list (string * string).

(** The label of a known zone is "(GMT", the zone's offset at that moment
    as sign, two digits, colon, two digits, ") " and a name: the friendly
    name of the table when it has a non-empty one; without an entry, the
    identifier with its underscore replaced by a space when it has at most
    one. *)
Theorem humanizeZone_label (now : Z) (name : string) (z : Zone) :
  getZone name = Some z -> isEmpty name = false ->
  Z.abs now <= ES.maxTime ->
  Z.abs (now - Zone_utcOffset z now * 60000) <= ES.maxTime ->
  (forall friendly, lookup TIMEZONES name = Some friendly -> isEmpty friendly = false ->
     humanizeZone LocalTZA getZone TIMEZONES now name
     = ("(GMT" ++ offsetText ":" (- Zone_utcOffset z now) ++ ") " ++ friendly)%string) /\
  (lookup TIMEZONES name = None -> (underscores name <= 1)%nat ->
     humanizeZone LocalTZA getZone TIMEZONES now name
     = ("(GMT" ++ offsetText ":" (- Zone_utcOffset z now) ++ ") "
        ++ Text.replaceAllUnderscores name)%string).
Proof.
  intros Hz Hne Hnow Hw.
  pose proof (humanizeZone_known LocalTZA getZone TIMEZONES now name z Hz Hne Hnow Hw) as E.
  split.
  - intros friendly Hl Hf. rewrite E, Hl. unfold orElse. now rewrite Hf.
  - intros Hl Hu. rewrite E, Hl. unfold orElse. now rewrite beautify_at_most_one.
Qed.


End LabelFacts.

Lemma humanizeZone_label_witness :
  humanizeZone utcTZA sampleZones sampleTable 1516710896789 "America/New_York"
    = ("(GMT" ++ offsetText ":" (- Zone_utcOffset zoneNewYork 1516710896789) ++ ") "
       ++ "Eastern Time (US & Canada)")%string.
Proof.
  apply (proj1 (humanizeZone_label utcTZA sampleZones sampleTable 1516710896789
                  "America/New_York" zoneNewYork eq_refl eq_refl
                  ltac:(vm_compute; discriminate) ltac:(vm_compute; discriminate))
           "Eastern Time (US & Canada)"%string); reflexivity.
Defined.


(** * Further compositions *)

(** In a default zone with a constant offset, truncating to the day and
    shifting by whole days commute (years outside 0..99, values inside the
    range of [Date]). *)
Theorem toDate_shiftDate_commute (off t n : Z) :
  let m := ES.startOfDay (t + off) - off in
  ~ (0 <= ES.YearFromTime (t + off) <= 99) ->
  ~ (0 <= ES.YearFromTime (t + n * 86400000 + off) <= 99) ->
  Z.abs (t + n * 86400000) <= ES.maxTime ->
  Z.abs m <= ES.maxTime ->
  Z.abs (m + n * 86400000) <= ES.maxTime ->
  toDate (fixedTZA off) (shiftDate (Some t) n) = shiftDate (toDate (fixedTZA off) (Some t)) n /\
  toDate (fixedTZA off) (shiftDate (Some t) n) = Some (m + n * 86400000).
Proof.
  intros m Hy Hy' Ht Hm Hm'.
  assert (Es : forall x, Z.abs (x + n * 86400000) <= ES.maxTime ->
                         shiftDate (Some x) n = Some (x + n * 86400000)).
  { intros x Hx. unfold shiftDate. rewrite shift_in_range; [f_equal; lia|].
    replace (x + n * 24 * 60 * 60 * 1000) with (x + n * 86400000) by lia. exact Hx. }
  assert (El : toDate (fixedTZA off) (Some t) = Some m).
  { rewrite toDate_unfold by exact Hy. unfold UTC, LocalTime, fixedTZA. fold m.
    now apply TimeClip_in_range. }
  assert (Em : ES.startOfDay (t + n * 86400000 + off) - off = m + n * 86400000).
  { unfold m, ES.startOfDay, ES.MakeDate, ES.Day, ES.msPerDay.
    replace (t + n * 86400000 + off) with (t + off + n * 86400000) by lia.
    rewrite Z.div_add by lia. lia. }
  assert (Er : toDate (fixedTZA off) (Some (t + n * 86400000)) = Some (m + n * 86400000)).
  { rewrite toDate_unfold by exact Hy'. unfold UTC, LocalTime, fixedTZA. rewrite Em.
    now apply TimeClip_in_range. }
  rewrite (Es t Ht), El, (Es m Hm'), Er. split; reflexivity.
Qed.

Lemma toDate_shiftDate_commute_witness :
  toDate (fixedTZA 19800000) (shiftDate (Some 1516710896789) 40)
    = shiftDate (toDate (fixedTZA 19800000) (Some 1516710896789)) 40 /\
  toDate (fixedTZA 19800000) (shiftDate (Some 1516710896789) 40)
    = Some (ES.startOfDay (1516710896789 + 19800000) - 19800000 + 40 * 86400000).
Proof.
  apply (toDate_shiftDate_commute 19800000 1516710896789 40).
  - vm_compute. intros [_ H]. apply H. reflexivity.
  - vm_compute. intros [_ H]. apply H. reflexivity.
  - vm_compute. discriminate.
  - vm_compute. discriminate.
  - vm_compute. discriminate.
Defined.


